(** * webviz_config.certificate._certificate_generator

    A shallow embedding of [_certificate_generator.py]: the local
    certificate authority ([create_ca]) and the localhost server
    certificate ([create_certificate]) of webviz-config, with the helper
    functions [create_key] and [certificate_template].

    The module is a sequence of effects on the machine it runs on: it
    reads and writes files, reads the clock, draws randomness, starts an
    external process and prints.  These are threaded through an explicit
    [World]; a Python exception is the left summand of the result and
    leaves the world as it was when the exception was raised.

    The [cryptography] package is outside the repository.  Its objects
    are modelled symbolically: a private key is the randomness it was
    generated from, a signature records the key that made it, and a
    serialisation is a constructor around the serialised object.  Calls
    into the package are modelled on the arguments this module passes to
    them.  A PEM file can hold a private key of any kind that the package
    knows; a key of a kind that signs under a hash is taken to be large
    enough for a SHA-256 signature.  A signed certificate holds its
    dates in whole seconds.  The range checks that the package makes on
    dates (no date before 1950, no window that ends before it starts, no
    date after the year 9999) hold on any clock that is roughly right
    and are left out.

    The file system has files and directories, no permissions and no
    quota.  The external program that [create_ca] starts writes files of
    its own when it exits with status 0, none of them in the user data
    directory; when it fails it is taken to have written nothing. *)

From Stdlib Require Import ZArith Ascii String List.
From Stdlib.Strings Require Import Byte.
From stdpp Require Import base option list strings gmap fin_maps.

Local Open Scope string_scope.
Local Open Scope Z_scope.

(* ===================================================================== *)
(** ** Paths and the file system *)
(* ===================================================================== *)

(** A [pathlib.Path] is the list of its components with the LAST component
    first: [directory / name] is [name :: directory], the parent of a path
    is its tail and the root is [[]]. *)
Abbreviation Path := (list string).

Definition joinpath (directory : Path) (name : string) : Path :=
  name :: directory.
Infix "//" := joinpath (at level 40, left associativity).

(** [str(path)] on a POSIX system. *)
Definition path_str (p : Path) : string :=
  match p with
  | [] => "/"
  | _ => String.concat "" (map (fun c => "/" +:+ c) (rev p))
  end.

(** ** Objects of the [cryptography] package *)

Record RSAPrivateKey := {
  public_exponent : Z;
  key_size : Z;
  key_material : nat   (* the draw of the random source the key came from *)
}.

Record RSAPublicKey := {
  pub_exponent : Z;
  pub_key_size : Z;
  pub_material : nat
}.

(** The other kinds of private key that the package loads from a file. *)
Inductive KeyType := DSA | EllipticCurve | Ed25519 | Ed448 | X25519 | X448 | DH.

(** A private key is an RSA key, as [create_key] makes it, or a key of
    another kind. *)
Inductive PrivateKey :=
| RSAKey (key : RSAPrivateKey)
| OtherKey (type : KeyType) (material : nat).

Inductive PublicKey :=
| RSAPublic (key : RSAPublicKey)
| OtherPublic (type : KeyType) (material : nat).

Coercion RSAKey : RSAPrivateKey >-> PrivateKey.
Coercion RSAPublic : RSAPublicKey >-> PublicKey.

(** [key.public_key()] *)
Definition public_key (key : PrivateKey) : PublicKey :=
  match key with
  | RSAKey key =>
      RSAPublic {| pub_exponent := public_exponent key;
                   pub_key_size := key_size key;
                   pub_material := key_material key |}
  | OtherKey type material => OtherPublic type material
  end.

Inductive Encoding := PEM | DER.
Inductive PrivateFormat := TraditionalOpenSSL | PKCS8.
Inductive KeySerializationEncryption :=
| NoEncryption
| BestAvailableEncryption (password : list byte).

Inductive HashAlgorithm := SHA1 | SHA256.

Definition digest_size (h : HashAlgorithm) : nat :=
  match h with SHA1 => 20%nat | SHA256 => 32%nat end.

Inductive NameOID :=
| COUNTRY_NAME
| LOCALITY_NAME
| ORGANIZATION_NAME
| COMMON_NAME
| ORGANIZATIONAL_UNIT_NAME.

Record NameAttribute := { attr_oid : NameOID; attr_value : string }.

Abbreviation Name := (list NameAttribute).

Inductive GeneralName := DNSName (value : string).

Record KeyUsage := {
  digital_signature : bool;
  key_encipherment : bool;
  content_commitment : bool;
  data_encipherment : bool;
  key_agreement : bool;
  encipher_only : bool;
  decipher_only : bool;
  key_cert_sign : bool;
  crl_sign : bool
}.

Inductive ExtensionType :=
| SubjectAlternativeName (general_names : list GeneralName)
| BasicConstraints (ca : bool) (path_length : option Z)
| KeyUsageExt (usage : KeyUsage)
| AuthorityKeyIdentifier (issuer_public_key : PublicKey).

Record Extension := { critical : bool; extension : ExtensionType }.

(** The symbolic signature: which key signed, under which hash. *)
Record Signature := { signer : PrivateKey; signature_hash : HashAlgorithm }.

Record Certificate := {
  cert_subject : Name;
  cert_issuer : Name;
  cert_public_key : PublicKey;
  cert_serial_number : Z;
  cert_not_valid_before : Z;
  cert_not_valid_after : Z;
  cert_extensions : list Extension;
  cert_signature : Signature
}.

(** [x509.CertificateBuilder]: every field starts unset. *)
Record CertificateBuilder := {
  b_subject_name : option Name;
  b_issuer_name : option Name;
  b_public_key : option PublicKey;
  b_serial_number : option Z;
  b_not_valid_before : option Z;
  b_not_valid_after : option Z;
  b_extensions : list Extension
}.

(** What a file holds: the serialisation of a key, of a certificate, or
    any other bytes. *)
Inductive Bytes :=
| private_bytes (key : PrivateKey) (encoding : Encoding)
    (format : PrivateFormat) (encryption_algorithm : KeySerializationEncryption)
| public_bytes (cert : Certificate) (encoding : Encoding)
| raw_bytes (data : list byte).

Inductive Node :=
| File (data : Bytes)
| Directory.

(** The file system: a finite map from paths to nodes.  The root is a
    directory and is not stored. *)
Abbreviation FS := (gmap Path Node).

Definition stat (fs : FS) (p : Path) : option Node :=
  match p with
  | [] => Some Directory
  | _ => fs !! p
  end.

(** [path.is_file()] *)
Definition is_file (fs : FS) (p : Path) : bool :=
  match stat fs p with
  | Some (File _) => true
  | _ => false
  end.

Definition is_dir (fs : FS) (p : Path) : bool :=
  match stat fs p with
  | Some Directory => true
  | _ => false
  end.

(** Every stored node lies in a directory, as on a real file system. *)
Definition fs_wf (fs : FS) : Prop :=
  map_Forall (fun p _ => is_dir fs (tail p) = true) fs.

(** ** Python exceptions raised by or passing through the module *)
Inductive Exception :=
| OSError (msg : string)
| FileExistsError
| FileNotFoundError
| NotADirectoryError
| IsADirectoryError
| PermissionError
| CalledProcessError (returncode : Z)
| RuntimeError (msg : string)
| ValueError (msg : string)
| TypeError (msg : string).

(** [path.mkdir(parents=True, exist_ok=True)], as pathlib does it: try the
    directory itself; when its parent is missing create the parent the
    same way and try again; an existing directory is accepted. *)
Fixpoint mkdir_parents_exist_ok (p : Path) (fs : FS) : Exception + FS :=
  match p with
  | [] => inr fs
  | _ :: parent =>
      match fs !! p with
      | Some Directory => inr fs
      | Some (File _) => inl FileExistsError
      | None =>
          match stat fs parent with
          | Some Directory => inr (<[p := Directory]> fs)
          | Some (File _) => inl NotADirectoryError
          | None =>
              match mkdir_parents_exist_ok parent fs with
              | inl e => inl e
              | inr fs' => inr (<[p := Directory]> fs')
              end
          end
      end
  end.

(** [with open(path, "wb") as filehandle: filehandle.write(data)] *)
Definition open_wb_write (p : Path) (data : Bytes) (fs : FS) : Exception + FS :=
  match p with
  | [] => inl IsADirectoryError
  | _ :: parent =>
      match stat fs parent with
      | None => inl FileNotFoundError
      | Some (File _) => inl NotADirectoryError
      | Some Directory =>
          match fs !! p with
          | Some Directory => inl IsADirectoryError
          | _ => inr (<[p := File data]> fs)
          end
      end
  end.

(** [with open(path, "rb") as filehandle: filehandle.read()] *)
Definition open_rb_read (p : Path) (fs : FS) : Exception + Bytes :=
  match stat fs p with
  | Some (File data) => inr data
  | Some Directory => inl IsADirectoryError
  | None => inl FileNotFoundError
  end.

(** The outcome of starting an external program. *)
Inductive SpawnResult :=
| Exited (returncode : Z)
| SpawnFailed (e : Exception).

(* ===================================================================== *)
(** ** The machine the module runs on *)
(* ===================================================================== *)

(** What the module reads from its surroundings and from the rest of the
    package ([_user_data_dir], [utils.terminal_colors]). *)
Class Platform := {
  getuser : string;                   (* getpass.getuser() at import time *)
  home : Path;                        (* pathlib.Path.home() *)
  user_data_dir : Path;               (* .._user_data_dir.user_data_dir() *)
  terminal_colors_GREEN : string;
  terminal_colors_RED : string;
  terminal_colors_BLUE : string;
  terminal_colors_BOLD : string;
  terminal_colors_END : string;
  (* the n-th reading of the UTC clock, in microseconds *)
  utcnow_reading : nat -> Z;
  (* the n-th serial number drawn by x509.random_serial_number() *)
  urandom_serial : nat -> Z;
  (* how the program started with this command line ends *)
  spawn : list string -> SpawnResult;
  (* the file system that the program leaves when it exits with status 0 *)
  spawn_writes : list string -> FS -> FS;
  (* cert.fingerprint(algorithm) *)
  fingerprint : Certificate -> HashAlgorithm -> list byte;
  fingerprint_size : forall c h, length (fingerprint c h) = digest_size h;
  (* the program writes its own files (certutil: the NSS database under
     the home directory), none in the user data directory *)
  spawn_keeps_user_data :
    forall command fs0 (q : Path),
      user_data_dir `suffix_of` q -> spawn_writes command fs0 !! q = fs0 !! q
}.

Record World := {
  fs : FS;
  stdout : list string;     (* what print has written, oldest first *)
  clock_reads : nat;        (* calls of datetime.utcnow so far *)
  serial_draws : nat;       (* calls of x509.random_serial_number so far *)
  rsa_draws : nat           (* calls of rsa.generate_private_key so far *)
}.

(** ** The monad of effects with exceptions *)

Definition M (A : Type) : Type := World -> (Exception + A) * World.

Definition ret {A} (a : A) : M A := fun w => (inr a, w).

Definition raise {A} (e : Exception) : M A := fun w => (inl e, w).

Definition bind {A B} (m : M A) (k : A -> M B) : M B :=
  fun w =>
    match m w with
    | (inl e, w') => (inl e, w')
    | (inr a, w') => k a w'
    end.

#[global] Instance M_ret : MRet M := @ret.
#[global] Instance M_bind : MBind M := fun A B k m => bind m k.

(** [try: body except <classes>: handler] *)
Definition try_except {A} (body : M A) (catches : Exception -> bool)
    (handler : M A) : M A :=
  fun w =>
    match body w with
    | (inl e, w') => if catches e then handler w' else (inl e, w')
    | (inr a, w') => (inr a, w')
    end.

Definition set_fs (fs' : FS) (w : World) : World :=
  {| fs := fs'; stdout := stdout w; clock_reads := clock_reads w;
     serial_draws := serial_draws w; rsa_draws := rsa_draws w |}.

Definition lift_fs (f : FS -> Exception + FS) : M unit :=
  fun w =>
    match f (fs w) with
    | inl e => (inl e, w)
    | inr fs' => (inr tt, set_fs fs' w)
    end.

Definition Path_mkdir (p : Path) : M unit := lift_fs (mkdir_parents_exist_ok p).

Definition write_file (p : Path) (data : Bytes) : M unit :=
  lift_fs (open_wb_write p data).

Definition read_file (p : Path) : M Bytes :=
  fun w =>
    match open_rb_read p (fs w) with
    | inl e => (inl e, w)
    | inr data => (inr data, w)
    end.

Definition Path_is_file (p : Path) : M bool := fun w => (inr (is_file (fs w) p), w).

Definition print (s : string) : M unit :=
  fun w =>
    (inr tt,
     {| fs := fs w; stdout := stdout w ++ [s]; clock_reads := clock_reads w;
        serial_draws := serial_draws w; rsa_draws := rsa_draws w |}).

(** [rsa.generate_private_key(public_exponent, key_size, backend)] *)
Definition generate_private_key (e bits : Z) : M RSAPrivateKey :=
  fun w =>
    (inr {| public_exponent := e; key_size := bits; key_material := rsa_draws w |},
     {| fs := fs w; stdout := stdout w; clock_reads := clock_reads w;
        serial_draws := serial_draws w; rsa_draws := S (rsa_draws w) |}).

(** [serialization.load_pem_private_key(data, password=None, backend)]:
    the key in the file, of whatever kind it is. *)
Definition load_pem_private_key (data : Bytes) : M PrivateKey :=
  match data with
  | private_bytes key PEM _ NoEncryption => ret key
  | private_bytes _ PEM _ (BestAvailableEncryption _) =>
      raise (TypeError "Password was not given but private key is encrypted")
  | _ => raise (ValueError "Could not deserialize key data.")
  end.

(** [x509.load_pem_x509_certificate(data, backend)] *)
Definition load_pem_x509_certificate (data : Bytes) : M Certificate :=
  match data with
  | public_bytes cert PEM => ret cert
  | _ => raise (ValueError "Unable to load certificate")
  end.

(** The builder's setters. *)
Definition CertificateBuilder_new : CertificateBuilder :=
  {| b_subject_name := None; b_issuer_name := None; b_public_key := None;
     b_serial_number := None; b_not_valid_before := None;
     b_not_valid_after := None; b_extensions := [] |}.

Definition subject_name (name : Name) (b : CertificateBuilder) :=
  {| b_subject_name := Some name; b_issuer_name := b_issuer_name b;
     b_public_key := b_public_key b; b_serial_number := b_serial_number b;
     b_not_valid_before := b_not_valid_before b;
     b_not_valid_after := b_not_valid_after b; b_extensions := b_extensions b |}.

Definition issuer_name (name : Name) (b : CertificateBuilder) :=
  {| b_subject_name := b_subject_name b; b_issuer_name := Some name;
     b_public_key := b_public_key b; b_serial_number := b_serial_number b;
     b_not_valid_before := b_not_valid_before b;
     b_not_valid_after := b_not_valid_after b; b_extensions := b_extensions b |}.

Definition builder_public_key (key : PublicKey) (b : CertificateBuilder) :=
  {| b_subject_name := b_subject_name b; b_issuer_name := b_issuer_name b;
     b_public_key := Some key; b_serial_number := b_serial_number b;
     b_not_valid_before := b_not_valid_before b;
     b_not_valid_after := b_not_valid_after b; b_extensions := b_extensions b |}.

Definition serial_number (n : Z) (b : CertificateBuilder) :=
  {| b_subject_name := b_subject_name b; b_issuer_name := b_issuer_name b;
     b_public_key := b_public_key b; b_serial_number := Some n;
     b_not_valid_before := b_not_valid_before b;
     b_not_valid_after := b_not_valid_after b; b_extensions := b_extensions b |}.

Definition not_valid_before (t : Z) (b : CertificateBuilder) :=
  {| b_subject_name := b_subject_name b; b_issuer_name := b_issuer_name b;
     b_public_key := b_public_key b; b_serial_number := b_serial_number b;
     b_not_valid_before := Some t;
     b_not_valid_after := b_not_valid_after b; b_extensions := b_extensions b |}.

Definition not_valid_after (t : Z) (b : CertificateBuilder) :=
  {| b_subject_name := b_subject_name b; b_issuer_name := b_issuer_name b;
     b_public_key := b_public_key b; b_serial_number := b_serial_number b;
     b_not_valid_before := b_not_valid_before b;
     b_not_valid_after := Some t; b_extensions := b_extensions b |}.

(** [builder.add_extension(extension, critical)]: appended after the
    extensions already there. *)
Definition add_extension (ext : ExtensionType) (crit : bool)
    (b : CertificateBuilder) :=
  {| b_subject_name := b_subject_name b; b_issuer_name := b_issuer_name b;
     b_public_key := b_public_key b; b_serial_number := b_serial_number b;
     b_not_valid_before := b_not_valid_before b;
     b_not_valid_after := b_not_valid_after b;
     b_extensions := b_extensions b ++ [{| critical := crit; extension := ext |}] |}.

(** The dates of a signed certificate are X.509 times and hold whole
    seconds: the microseconds of a [datetime] are dropped when the
    certificate is encoded. *)
Definition whole_seconds (t : Z) : Z := t / 1000000 * 1000000.

(** What a key answers when asked to sign under a hash algorithm: RSA,
    DSA and elliptic-curve keys sign; Ed25519 and Ed448 keys sign only
    without a hash; the other kinds are for key exchange and do not
    sign.  (For these last the class of the exception has changed
    between releases of the package.) *)
Definition sign_refusal (private_key : PrivateKey) : option Exception :=
  match private_key with
  | RSAKey _ | OtherKey DSA _ | OtherKey EllipticCurve _ => None
  | OtherKey Ed25519 _ | OtherKey Ed448 _ =>
      Some (ValueError "algorithm must be None when signing via ed25519 or ed448")
  | OtherKey X25519 _ | OtherKey X448 _ | OtherKey DH _ =>
      Some (TypeError "Key must be an rsa, dsa, ec, ed25519, or ed448 private key.")
  end.

(** [builder.sign(private_key, algorithm, backend)] with a hash
    algorithm: a builder with an unset field is refused, then a key that
    does not sign under a hash; otherwise the certificate has the
    builder's fields, its two dates cut to whole seconds, and the
    signature of [private_key]. *)
Definition sign (private_key : PrivateKey) (algorithm : HashAlgorithm)
    (b : CertificateBuilder) : M Certificate :=
  match b_subject_name b with
  | None => raise (ValueError "A certificate must have a subject")
  | Some s =>
  match b_issuer_name b with
  | None => raise (ValueError "A certificate must have an issuer")
  | Some i =>
  match b_serial_number b with
  | None => raise (ValueError "A certificate must have a serial number")
  | Some n =>
  match b_not_valid_before b with
  | None => raise (ValueError "A certificate must have a not valid before time")
  | Some nb =>
  match b_not_valid_after b with
  | None => raise (ValueError "A certificate must have a not valid after time")
  | Some na =>
  match b_public_key b with
  | None => raise (ValueError "A certificate must have a public key")
  | Some pk =>
  match sign_refusal private_key with
  | Some e => raise e
  | None =>
      ret {| cert_subject := s; cert_issuer := i; cert_public_key := pk;
             cert_serial_number := n;
             cert_not_valid_before := whole_seconds nb;
             cert_not_valid_after := whole_seconds na;
             cert_extensions := b_extensions b;
             cert_signature :=
               {| signer := private_key; signature_hash := algorithm |} |}
  end end end end end end end.

(** [name |> method args] is the method call [name.method(args)] of a
    builder chain. *)
Notation "b |> f" := (f b) (at level 45, left associativity, only parsing).

(** [x509.AuthorityKeyIdentifier.from_issuer_public_key(public_key)] *)
Definition from_issuer_public_key (key : PublicKey) : ExtensionType :=
  AuthorityKeyIdentifier key.

(** [argparse.Namespace] of the [certificate] command. *)
Record Namespace := { force : bool; auto_install : bool }.

(** ** Strings *)

Definition nl : string := String "010"%char EmptyString.   (* line feed *)
Definition dq : string := String "034"%char EmptyString.   (* double quote *)

Definition hex_digit (n : N) : ascii :=
  nth (N.to_nat n) (list_ascii_of_string "0123456789abcdef") "0"%char.

(** [bytes.hex()]: two lower-case digits a byte. *)
Definition byte_hex (b : byte) : string :=
  let n := Byte.to_N b in
  String (hex_digit (n / 16)) (String (hex_digit (n mod 16)) EmptyString).

Fixpoint bytes_hex (bs : list byte) : string :=
  match bs with
  | [] => EmptyString
  | b :: bs' => byte_hex b +:+ bytes_hex bs'
  end.

(** [str.upper()] on ASCII text. *)
Definition ascii_upper (c : ascii) : ascii :=
  let n := N_of_ascii c in
  if ((97 <=? n) && (n <=? 122))%N then ascii_of_N (n - 32) else c.

Fixpoint str_upper (s : string) : string :=
  match s with
  | EmptyString => EmptyString
  | String c s' => String (ascii_upper c) (str_upper s')
  end.

(** The pattern [.{n,n}] at the start of [s]: [n] characters, none of
    them a line feed. *)
Fixpoint match_dots (n : nat) (s : string) : option string :=
  match n with
  | O => Some EmptyString
  | S k =>
      match s with
      | EmptyString => None
      | String c s' =>
          if Ascii.eqb c "010" then None
          else String c <$> match_dots k s'
      end
  end.

(** [re.findall(".{8,8}", s)]: the matches from left to right, none
    overlapping another.  [skip] counts the characters still covered by
    the last match; where the pattern does not match the search moves
    on by one character. *)
Fixpoint findall_from (skip : nat) (s : string) : list string :=
  match s with
  | EmptyString => []
  | String _ s' =>
      match skip with
      | S k => findall_from k s'
      | O =>
          match match_dots 8 s with
          | Some m => m :: findall_from 7 s'
          | None => findall_from 0 s'
          end
      end
  end.

Definition re_findall_dot_8_8 (s : string) : list string := findall_from 0 s.

(** A [datetime] is a number of microseconds on an unbounded line;
    [datetime.timedelta(days=d)] is [d] days of microseconds. *)
Definition timedelta_days (d : Z) : Z := d * 86400 * 1000000.

Section Generator.
Context `{Platform}.

(** [datetime.datetime.utcnow()] *)
Definition utcnow : M Z :=
  fun w =>
    (inr (utcnow_reading (clock_reads w)),
     {| fs := fs w; stdout := stdout w; clock_reads := S (clock_reads w);
        serial_draws := serial_draws w; rsa_draws := rsa_draws w |}).

(** [x509.random_serial_number()] *)
Definition random_serial_number : M Z :=
  fun w =>
    (inr (urandom_serial (serial_draws w)),
     {| fs := fs w; stdout := stdout w; clock_reads := clock_reads w;
        serial_draws := S (serial_draws w); rsa_draws := rsa_draws w |}).

(** [subprocess.run(command, check=True)]: a program that exits with
    status 0 has done its work on the file system; one that exits with
    another status, or could not be started, is taken to have written
    nothing. *)
Definition subprocess_run_check (command : list string) : M unit :=
  match spawn command with
  | Exited 0 => lift_fs (fun fs0 => inr (spawn_writes command fs0))
  | Exited code => raise (CalledProcessError code)
  | SpawnFailed e => raise e
  end.

(* ===================================================================== *)
(** ** The module *)
(* ===================================================================== *)

Definition NAME : Name :=
  [ {| attr_oid := COUNTRY_NAME; attr_value := "NO" |};
    {| attr_oid := LOCALITY_NAME; attr_value := "Trondheim" |};
    {| attr_oid := ORGANIZATION_NAME; attr_value := "Webviz" |};
    {| attr_oid := COMMON_NAME; attr_value := getuser |};
    {| attr_oid := ORGANIZATIONAL_UNIT_NAME; attr_value := "Webviz" |} ].

Definition CA_KEY_FILENAME := "ca.key".
Definition CA_CRT_FILENAME := "ca.crt".

Definition SERVER_KEY_FILENAME := "server.key".
Definition SERVER_CRT_FILENAME := "server.crt".

Definition create_key (key_path : Path) : M RSAPrivateKey :=
  '(key : RSAPrivateKey) ← generate_private_key 65537 2048;
  write_file key_path (private_bytes key PEM TraditionalOpenSSL NoEncryption);;
  ret key.

Definition certificate_template (subject issuer : Name)
    (public_key : PublicKey) (certauthority : bool) : M CertificateBuilder :=
  not_valid_after_ ←
    (if certauthority
     then now ← utcnow; ret (now + timedelta_days (365 * 10))
     else (* shorter valid length for on-the-fly certificates *)
       now ← utcnow; ret (now + timedelta_days 7));
  serial ← random_serial_number;
  now ← utcnow;
  ret (CertificateBuilder_new
       |> subject_name subject
       |> issuer_name issuer
       |> builder_public_key public_key
       |> serial_number serial
       |> not_valid_before now
       |> not_valid_after not_valid_after_
       |> add_extension (SubjectAlternativeName [DNSName "localhost"]) true
       |> add_extension (BasicConstraints certauthority None) true).

(** The thumbprint shown to the user:
    ["-".join(re.findall(".{8,8}", digest.hex())).upper()] *)
Definition thumbprint (digest : list byte) : string :=
  str_upper (String.concat "-" (re_findall_dot_8_8 (bytes_hex digest))).

Definition already_exists_message (ca_crt_path : Path) : string :=
  "The file " +:+ path_str ca_crt_path +:+ " already exists. Add the "
  +:+ "command line flag --force if you want to overwrite".

Definition certutil_command (ca_crt_path : Path) : list string :=
  [ "certutil";
    "-d";
    "sql:" +:+ path_str (home // ".pki" // "nssdb");
    "-A";
    "-t";
    "CT,C,c";
    "-n";
    "webviz";
    "-i";
    path_str ca_crt_path ].

Definition installed_message : string :=
  terminal_colors_GREEN +:+ terminal_colors_BOLD
  +:+ "Successfully installed webviz certificate. "
  +:+ "Ready to browse applications on localhost."
  +:+ terminal_colors_END.

Definition install_failed_message : string :=
  terminal_colors_RED
  +:+ "Automatic installation of webviz certificate failed. "
  +:+ "Falling back to manual installation."
  +:+ terminal_colors_END.

Definition manual_instructions (directory : Path) (sha1 : string) : string :=
  String.concat ""
    [ terminal_colors_BLUE; terminal_colors_BOLD; nl;
      " Created CA key and certificate files (both saved in "; path_str directory; ")."; nl;
      " Keep the key file ("; CA_KEY_FILENAME; ") private. The certificate file"; nl;
      " ("; CA_CRT_FILENAME; ") is not sensitive, and you can import it in"; nl;
      " your browser(s)."; nl;
      nl;
      " To install it in Chrome:"; nl;
      nl;
      "    - Open Chrome and go to chrome://settings/privacy"; nl;
      "    - Select "; dq; "Manage certificates"; dq; nl;
      "    - Under the tab "; dq; "Trusted Root Certificatation Authorities"; dq; ", click "; dq; "Import"; dq; nl;
      "    - Go to "; path_str directory; " and select the created certificate ("; CA_CRT_FILENAME; ")."; nl;
      "    - Click "; dq; "Next"; dq; " and select "; dq; "Place all certificates in the following store"; dq; nl;
      "    - Click "; dq; "Next"; dq; " and then "; dq; "Finished"; dq; nl;
      "    - If a dialog box appears, you can verify that the displayed thumbprint is"; nl;
      "      the same as this one:"; nl;
      "       "; sha1; nl;
      "    - Restart Chrome"; nl;
      nl;
      " When done, you do not have to rerun "; dq; "webviz certificate"; dq; " or do this procedure"; nl;
      " before the certificate expiry date has passed. The certificate is only valid"; nl;
      " for localhost."; terminal_colors_END ].

(** [except (PermissionError, subprocess.CalledProcessError)] *)
Definition install_handler_catches (e : Exception) : bool :=
  match e with
  | PermissionError | CalledProcessError _ => true
  | _ => false
  end.

Definition create_ca (args : Namespace) : M unit :=
  let directory := user_data_dir in

  Path_mkdir directory;;

  let ca_key_path := directory // CA_KEY_FILENAME in
  let ca_crt_path := directory // CA_CRT_FILENAME in

  exists_unforced ←
    (if negb (force args) then Path_is_file ca_crt_path else ret false);
  (if (exists_unforced : bool)
   then raise (OSError (already_exists_message ca_crt_path))
   else ret tt);;

  '(key : RSAPrivateKey) ← create_key ca_key_path;

  let subject := NAME in
  let issuer := NAME in

  builder ← certificate_template subject issuer (public_key key) true;
  cert ← sign key SHA256 builder;

  write_file ca_crt_path (public_bytes cert PEM);;

  let sha1 := thumbprint (fingerprint cert SHA1) in

  installed ←
    (if auto_install args
     then
       try_except
         (subprocess_run_check (certutil_command ca_crt_path);;
          print installed_message;;
          ret true)
         install_handler_catches
         (print install_failed_message;;
          ret false)
     else ret false);

  if negb (installed : bool)
  then print (manual_instructions directory sha1)
  else ret tt.

Definition ca_not_found_message : string :=
  "Could not find CA key and certificate. Please "
  +:+ "run the command " +:+ dq +:+ "webviz certificate --auto-install" +:+ dq +:+ " and "
  +:+ "try again".

Definition server_key_usage : KeyUsage :=
  {| digital_signature := true;
     key_encipherment := true;
     content_commitment := true;
     data_encipherment := false;
     key_agreement := false;
     encipher_only := false;
     decipher_only := false;
     key_cert_sign := false;
     crl_sign := false |}.

Definition create_certificate (directory : Path) : M unit :=
  let ca_directory := user_data_dir in
  let ca_key_path := ca_directory // CA_KEY_FILENAME in
  let ca_crt_path := ca_directory // CA_CRT_FILENAME in

  let server_key_path := directory // SERVER_KEY_FILENAME in
  let server_crt_path := directory // SERVER_CRT_FILENAME in

  key_found ← Path_is_file ca_key_path;
  missing ←
    (if negb key_found then ret true
     else crt_found ← Path_is_file ca_crt_path; ret (negb crt_found));
  (if (missing : bool)
   then raise (RuntimeError ca_not_found_message)
   else ret tt);;

  data ← read_file ca_key_path;
  ca_key ← load_pem_private_key data;

  data ← read_file ca_crt_path;
  ca_crt ← load_pem_x509_certificate data;

  '(server_key : RSAPrivateKey) ← create_key server_key_path;

  builder ←
    certificate_template NAME (cert_subject ca_crt) (public_key server_key) false;
  crt ←
    sign ca_key SHA256
      (builder
       |> add_extension (KeyUsageExt server_key_usage) true
       |> add_extension (from_issuer_public_key (public_key ca_key)) false);

  write_file server_crt_path (public_bytes crt PEM).

(* ===================================================================== *)
(** ** Notions used to state the properties *)
(* ===================================================================== *)

(** The key that [rsa.generate_private_key(65537, 2048)] returns in [w]. *)
Definition fresh_key (w : World) : RSAPrivateKey :=
  {| public_exponent := 65537; key_size := 2048; key_material := rsa_draws w |}.

(** The self-signed certificate that [create_ca] builds when started in [w]. *)
Definition ca_certificate (w : World) : Certificate :=
  {| cert_subject := NAME;
     cert_issuer := NAME;
     cert_public_key := public_key (fresh_key w);
     cert_serial_number := urandom_serial (serial_draws w);
     cert_not_valid_before := whole_seconds (utcnow_reading (S (clock_reads w)));
     cert_not_valid_after :=
       whole_seconds (utcnow_reading (clock_reads w) + timedelta_days (365 * 10));
     cert_extensions :=
       [ {| critical := true;
            extension := SubjectAlternativeName [DNSName "localhost"] |};
         {| critical := true; extension := BasicConstraints true None |} ];
     cert_signature := {| signer := fresh_key w; signature_hash := SHA256 |} |}.

(** The certificate that [create_certificate] builds when started in [w]
    with the CA key [ca_key] and the CA certificate [ca_crt] on disk. *)
Definition server_certificate (w : World) (ca_key : PrivateKey)
    (ca_crt : Certificate) : Certificate :=
  {| cert_subject := NAME;
     cert_issuer := cert_subject ca_crt;
     cert_public_key := public_key (fresh_key w);
     cert_serial_number := urandom_serial (serial_draws w);
     cert_not_valid_before := whole_seconds (utcnow_reading (S (clock_reads w)));
     cert_not_valid_after :=
       whole_seconds (utcnow_reading (clock_reads w) + timedelta_days 7);
     cert_extensions :=
       [ {| critical := true;
            extension := SubjectAlternativeName [DNSName "localhost"] |};
         {| critical := true; extension := BasicConstraints false None |};
         {| critical := true; extension := KeyUsageExt server_key_usage |};
         {| critical := false;
            extension := AuthorityKeyIdentifier (public_key ca_key) |} ];
     cert_signature := {| signer := ca_key; signature_hash := SHA256 |} |}.

(** The thumbprint that [create_ca] computes when started in [w]. *)
Definition ca_sha1 (w : World) : string :=
  thumbprint (fingerprint (ca_certificate w) SHA1).

(** The last part of [create_ca], from [installed = False] on. *)
Definition install_or_instruct (auto : bool) (directory : Path) (sha1 : string)
  : M unit :=
  installed ←
    (if auto
     then
       try_except
         (subprocess_run_check (certutil_command (directory // CA_CRT_FILENAME));;
          print installed_message;;
          ret true)
         install_handler_catches
         (print install_failed_message;;
          ret false)
     else ret false);
  if negb (installed : bool)
  then print (manual_instructions directory sha1)
  else ret tt.

End Generator.

(** The worlds reached by the steps of the module. *)
Definition bump_rsa (w : World) : World :=
  {| fs := fs w; stdout := stdout w; clock_reads := clock_reads w;
     serial_draws := serial_draws w; rsa_draws := S (rsa_draws w) |}.

Definition after_template (w : World) : World :=
  {| fs := fs w; stdout := stdout w; clock_reads := S (S (clock_reads w));
     serial_draws := S (serial_draws w); rsa_draws := rsa_draws w |}.

Definition add_stdout (lines : list string) (w : World) : World :=
  {| fs := fs w; stdout := stdout w ++ lines; clock_reads := clock_reads w;
     serial_draws := serial_draws w; rsa_draws := rsa_draws w |}.

(** [open(path, "wb")] succeeds: the parent is a directory and the path
    itself is not one. *)
Definition writable (fs0 : FS) (p : Path) : bool :=
  match p with
  | [] => false
  | _ :: parent => is_dir fs0 parent && negb (is_dir fs0 p)
  end.

(** No file stands where [path.mkdir(parents=True)] needs a directory:
    neither the path nor anything above it is a file. *)
Fixpoint no_file_on_path (fs0 : FS) (p : Path) : bool :=
  negb (is_file fs0 p) &&
  match p with
  | [] => true
  | _ :: parent => no_file_on_path fs0 parent
  end.

(** The trust-store tool was denied permission or exited non-zero. *)
Definition install_failed (r : SpawnResult) : bool :=
  match r with
  | SpawnFailed PermissionError => true
  | SpawnFailed _ => false
  | Exited code => negb (code =? 0)
  end.

(** The attempt to install ends in an exception that [create_ca] lets
    through. *)
Definition install_raises (r : SpawnResult) : bool :=
  match r with
  | SpawnFailed e => negb (install_handler_catches e)
  | Exited _ => false
  end.

(** The key signs a certificate under a hash algorithm. *)
Definition signs_with_hash (key : PrivateKey) : bool :=
  match sign_refusal key with
  | None => true
  | Some _ => false
  end.

(** Chain verification of a certificate against its issuer: the issuer
    field is the issuer's subject, and the signature is one of the
    issuer's key under SHA-256. *)
Definition verify_directly_issued_by (crt issuer : Certificate) : Prop :=
  cert_issuer crt = cert_subject issuer /\
  public_key (signer (cert_signature crt)) = cert_public_key issuer /\
  signature_hash (cert_signature crt) = SHA256.

(** The fingerprint as the specification words it: the hex digest split
    into five groups of eight characters, each in upper case, joined by
    hyphens. *)
Definition five_groups_of_8 (s : string) : list string :=
  map (fun i => substring (8 * i) 8 s) (seq 0 5).

Definition spec_fingerprint (digest : list byte) : string :=
  String.concat "-" (map str_upper (five_groups_of_8 (bytes_hex digest))).

Definition is_upper_hex (c : ascii) : bool :=
  let n := N_of_ascii c in
  (((48 <=? n) && (n <=? 57)) || ((65 <=? n) && (n <=? 70)))%N.

(** [groups_form groups in_group s]: [s] is [in_group] upper-case hex
    digits followed by [groups - 1] groups of a hyphen and eight such
    digits. *)
Fixpoint groups_form (groups in_group : nat) (s : string) : bool :=
  match s with
  | EmptyString => Nat.eqb groups 1 && Nat.eqb in_group 0
  | String c s' =>
      match in_group with
      | S k => is_upper_hex c && groups_form groups k s'
      | O =>
          match groups with
          | S g => Ascii.eqb c "-" && groups_form g 8 s'
          | O => false
          end
      end
  end.

(** [XXXXXXXX-XXXXXXXX-XXXXXXXX-XXXXXXXX-XXXXXXXX] *)
Definition fingerprint_form (s : string) : bool := groups_form 5 8 s.

Fixpoint string_forallb (P : ascii -> bool) (s : string) : bool :=
  match s with
  | EmptyString => true
  | String c s' => P c && string_forallb P s'
  end.

Definition not_newline (c : ascii) : bool := negb (Ascii.eqb c "010").

#[global] Instance fs_wf_dec (fs0 : FS) : Decision (fs_wf fs0).
Proof. unfold fs_wf. apply _. Defined.

(* ===================================================================== *)
(** ** A machine to run the module on *)
(* ===================================================================== *)

Definition esc : string := String "027"%char EmptyString.

Definition demo_fingerprint (c : Certificate) (h : HashAlgorithm) : list byte :=
  map (fun i =>
         default x00
           (Byte.of_N ((Z.to_N (cert_serial_number c) + 37 * N.of_nat i) mod 256)))
      (seq 0 (digest_size h)).

(** What certutil writes when it succeeds: its certificate database. *)
Definition demo_spawn_writes (command : list string) (fs0 : FS) : FS :=
  <[ ["alice"; "home"] // ".pki" // "nssdb" // "cert9.db" :=
       File (raw_bytes [x53; x51; x4c; x69; x74; x65]) ]> fs0.

Definition demo_platform (certutil : SpawnResult) : Platform.
Proof.
  refine
    {| getuser := "alice";
       home := ["alice"; "home"];
       user_data_dir := ["webviz"; "share"; ".local"; "alice"; "home"];
       terminal_colors_GREEN := esc +:+ "[92m";
       terminal_colors_RED := esc +:+ "[91m";
       terminal_colors_BLUE := esc +:+ "[94m";
       terminal_colors_BOLD := esc +:+ "[1m";
       terminal_colors_END := esc +:+ "[0m";
       utcnow_reading := fun n => 1600000000000000 + 250 * Z.of_nat n;
       urandom_serial := fun n => 4242 + Z.of_nat n;
       spawn := fun _ => certutil;
       spawn_writes := demo_spawn_writes;
       fingerprint := demo_fingerprint;
       fingerprint_size := fun c h =>
         eq_trans (List.length_map _ _) (List.length_seq (digest_size h) 0%nat);
       spawn_keeps_user_data := _ |}.
  intros command fs0 q [k ->]. apply lookup_insert_ne.
  destruct k as [|c k]; [discriminate|].
  intros Heq. apply (f_equal length) in Heq. rewrite length_app in Heq.
  simpl in Heq. lia.
Defined.

(** A machine with nothing on it but [/tmp]. *)
Definition fresh_world : World :=
  {| fs := {[ ["tmp"] := Directory ]}; stdout := [];
     clock_reads := 0; serial_draws := 0; rsa_draws := 0 |}.

(** The same machine after [webviz certificate --auto-install] where
    certutil exits with status 1. *)
Definition world_with_ca : World :=
  snd (@create_ca (demo_platform (Exited 1))
         {| force := false; auto_install := true |} fresh_world).

(** A CA whose certificate was lost: only [ca.key] is left. *)
Definition world_with_ca_key_only : World :=
  set_fs (delete (["webviz"; "share"; ".local"; "alice"; "home"] // "ca.crt")
            (fs world_with_ca)) world_with_ca.

(** A CA whose key file was replaced by the key of another CA. *)
Definition foreign_key : RSAPrivateKey :=
  {| public_exponent := 65537; key_size := 2048; key_material := 99 |}.

Definition world_with_foreign_ca_key : World :=
  set_fs (<[ ["webviz"; "share"; ".local"; "alice"; "home"] // "ca.key" :=
             File (private_bytes foreign_key PEM TraditionalOpenSSL NoEncryption) ]>
            (fs world_with_ca)) world_with_ca.



(** A CA with a directory where [ca.crt] should be. *)
Definition world_with_ca_crt_directory : World :=
  set_fs (<[ ["webviz"; "share"; ".local"; "alice"; "home"] // "ca.crt" := Directory ]>
            (fs world_with_ca)) world_with_ca.

(** The machine that has a CA, after a server certificate was made in
    [/tmp]. *)
Definition world_with_server_certificate : World :=
  snd (@create_certificate (demo_platform (Exited 1)) ["tmp"] world_with_ca).

(* ===================================================================== *)
(** * Properties *)
(* ===================================================================== *)

(** ** The model on small inputs *)

Example path_str_joined :
  path_str ([] // "home" // "alice" // "ca.crt") = "/home/alice/ca.crt".
Proof. reflexivity. Qed.

Example bytes_hex_lower_case : bytes_hex [x00; xab; xff; x10] = "00abff10".
Proof. reflexivity. Qed.

Example findall_drops_short_tail :
  re_findall_dot_8_8 "0123456789abcdefgh" = ["01234567"; "89abcdef"].
Proof. reflexivity. Qed.

Example findall_stops_at_line_feed :
  re_findall_dot_8_8 ("0123" +:+ nl +:+ "456789abcdef") = ["456789ab"].
Proof. reflexivity. Qed.

Example thumbprint_of_eight_bytes :
  thumbprint [x00; xab; xff; x10; xde; xad; xbe; xef] = "00ABFF10-DEADBEEF".
Proof. reflexivity. Qed.

Example mkdir_makes_parents :
  mkdir_parents_exist_ok ([] // "home" // "alice") ∅
  = inr (<[ [] // "home" // "alice" := Directory ]> (<[ [] // "home" := Directory ]> ∅)).
Proof. reflexivity. Qed.

Example mkdir_refuses_file :
  mkdir_parents_exist_ok ([] // "home") {[ [] // "home" := File (raw_bytes []) ]}
  = inl FileExistsError.
Proof. reflexivity. Qed.

Example open_needs_directory :
  open_wb_write ([] // "tmp" // "server.key") (raw_bytes []) ∅ = inl FileNotFoundError.
Proof. reflexivity. Qed.

(** ** Strings *)

Lemma append_cons c s r : String c s +:+ r = String c (s +:+ r).
Proof. reflexivity. Qed.

Lemma append_nil s : "" +:+ s = s.
Proof. reflexivity. Qed.

Lemma append_nil_r s : s +:+ "" = s.
Proof. induction s as [|c s IH]; [done|]. rewrite append_cons. by rewrite IH. Qed.

Lemma string_app_assoc s r t : s +:+ r +:+ t = (s +:+ r) +:+ t.
Proof. induction s as [|c s IH]; [done|]. rewrite !append_cons. by rewrite IH. Qed.

Lemma string_length_app s r :
  String.length (s +:+ r) = (String.length s + String.length r)%nat.
Proof. induction s as [|c s IH]; [done|]. rewrite append_cons. simpl. by rewrite IH. Qed.

Lemma string_forallb_app P s r :
  string_forallb P (s +:+ r) = string_forallb P s && string_forallb P r.
Proof.
  induction s as [|c s IH]; [done|].
  rewrite append_cons. simpl. rewrite IH. by rewrite andb_assoc.
Qed.

Lemma str_upper_app s r : str_upper (s +:+ r) = str_upper s +:+ str_upper r.
Proof.
  induction s as [|c s IH]; [done|]. rewrite append_cons. simpl. by rewrite IH.
Qed.

Lemma str_upper_length s : String.length (str_upper s) = String.length s.
Proof. induction s as [|c s IH]; [done|]. simpl. by rewrite IH. Qed.

Lemma substring_prefix g rest :
  substring 0 (String.length g) (g +:+ rest) = g.
Proof.
  induction g as [|c g IH]; [by destruct rest|].
  rewrite append_cons. simpl. by rewrite IH.
Qed.

Lemma substring_skip g rest k n :
  substring (String.length g + k) n (g +:+ rest) = substring k n rest.
Proof. induction g as [|c g IH]; [done|]. rewrite append_cons. simpl. apply IH. Qed.

Lemma substring_group pre g rest :
  substring (String.length pre) (String.length g) (pre +:+ g +:+ rest) = g.
Proof.
  rewrite <- (Nat.add_0_r (String.length pre)).
  rewrite substring_skip. apply substring_prefix.
Qed.

(** ** Hexadecimal digits *)

Lemma hex_digit_cases n :
  In (hex_digit n) (list_ascii_of_string "0123456789abcdef").
Proof.
  unfold hex_digit. generalize (N.to_nat n). intros k.
  do 16 (destruct k as [|k];
         [simpl; repeat (first [left; reflexivity | right])|]).
  destruct k; simpl; by left.
Qed.

Ltac hex_digit_by_cases n :=
  let Hin := fresh "Hin" in
  pose proof (hex_digit_cases n) as Hin; simpl in Hin;
  repeat (destruct Hin as [<-|Hin]; [reflexivity|]); done.

Lemma hex_digit_not_newline n : not_newline (hex_digit n) = true.
Proof. hex_digit_by_cases n. Qed.

Lemma hex_digit_upper n : is_upper_hex (ascii_upper (hex_digit n)) = true.
Proof. hex_digit_by_cases n. Qed.

Lemma bytes_hex_not_newline bs : string_forallb not_newline (bytes_hex bs) = true.
Proof.
  induction bs as [|b bs IH]; [done|].
  simpl. rewrite string_forallb_app, IH. unfold byte_hex. simpl.
  by rewrite !hex_digit_not_newline.
Qed.

Lemma bytes_hex_upper_hex bs :
  string_forallb is_upper_hex (str_upper (bytes_hex bs)) = true.
Proof.
  induction bs as [|b bs IH]; [done|].
  simpl. unfold byte_hex. cbv zeta. rewrite ?append_cons, ?append_nil. simpl.
  by rewrite !hex_digit_upper, IH.
Qed.

Lemma bytes_hex_length bs : String.length (bytes_hex bs) = (2 * length bs)%nat.
Proof.
  induction bs as [|b bs IH]; [done|].
  simpl. unfold byte_hex. cbv zeta. rewrite ?append_cons, ?append_nil. simpl. lia.
Qed.

Lemma bytes_hex_app bs1 bs2 :
  bytes_hex (bs1 ++ bs2)%list = bytes_hex bs1 +:+ bytes_hex bs2.
Proof.
  induction bs1 as [|b bs1 IH]; [done|].
  simpl. rewrite IH. unfold byte_hex. cbv zeta. by rewrite ?append_cons, ?append_nil.
Qed.

(** ** The regular expression [.{8,8}] *)

Lemma match_dots_prefix g rest :
  string_forallb not_newline g = true ->
  match_dots (String.length g) (g +:+ rest) = Some g.
Proof.
  induction g as [|c g IH]; [done|].
  rewrite append_cons. simpl. unfold not_newline at 1.
  destruct (Ascii.eqb c "010"); [done|]. simpl. intros Hg. by rewrite IH.
Qed.

Lemma findall_from_skip g rest :
  findall_from (String.length g) (g +:+ rest) = findall_from 0 rest.
Proof. induction g as [|c g IH]; [done|]. rewrite append_cons. simpl. apply IH. Qed.

(** Eight characters without a line feed are one match, and the search
    goes on behind them. *)
Lemma findall_from_group g rest :
  String.length g = 8%nat ->
  string_forallb not_newline g = true ->
  findall_from 0 (g +:+ rest) = g :: findall_from 0 rest.
Proof.
  intros Hlen Hg. destruct g as [|c g]; [done|].
  pose proof (match_dots_prefix (String c g) rest Hg) as Hm.
  rewrite Hlen in Hm. rewrite append_cons in *.
  cbn [findall_from]. rewrite Hm. f_equal.
  injection Hlen as Hlen. rewrite <- Hlen. apply findall_from_skip.
Qed.

Lemma groups_form_group n g rest :
  string_forallb is_upper_hex g = true ->
  groups_form n (String.length g) (g +:+ rest) = groups_form n 0 rest.
Proof.
  induction g as [|c g IH]; [done|].
  rewrite append_cons. simpl. destruct (is_upper_hex c); [|done]. simpl. apply IH.
Qed.

Lemma groups_form_hyphen n rest :
  groups_form (S n) 0 ("-" +:+ rest) = groups_form n 8 rest.
Proof. reflexivity. Qed.

Lemma five_groups_of_8_app g0 g1 g2 g3 g4 :
  String.length g0 = 8%nat -> String.length g1 = 8%nat ->
  String.length g2 = 8%nat -> String.length g3 = 8%nat ->
  String.length g4 = 8%nat ->
  five_groups_of_8 (g0 +:+ g1 +:+ g2 +:+ g3 +:+ g4) = [g0; g1; g2; g3; g4].
Proof.
  intros H0 H1 H2 H3 H4. unfold five_groups_of_8. cbv [map seq].
  f_equal; [|f_equal; [|f_equal; [|f_equal; [|f_equal]]]].
  - pose proof (substring_group "" g0 (g1 +:+ g2 +:+ g3 +:+ g4)) as Hs.
    by rewrite H0 in Hs.
  - pose proof (substring_group g0 g1 (g2 +:+ g3 +:+ g4)) as Hs.
    by rewrite H0, H1 in Hs.
  - pose proof (substring_group (g0 +:+ g1) g2 (g3 +:+ g4)) as Hs.
    by rewrite string_length_app, H0, H1, H2, <- !string_app_assoc in Hs.
  - pose proof (substring_group (g0 +:+ g1 +:+ g2) g3 g4) as Hs.
    by rewrite !string_length_app, H0, H1, H2, H3, <- !string_app_assoc in Hs.
  - pose proof (substring_group (g0 +:+ g1 +:+ g2 +:+ g3) g4 "") as Hs.
    by rewrite !string_length_app, H0, H1, H2, H3, H4, append_nil_r,
         <- !string_app_assoc in Hs.
Qed.

(** A digest of twenty bytes is five groups of four. *)
Lemma digest_groups (digest : list byte) :
  length digest = 20%nat ->
  exists d0 d1 d2 d3 d4,
    digest = (d0 ++ d1 ++ d2 ++ d3 ++ d4)%list /\
    length d0 = 4%nat /\ length d1 = 4%nat /\ length d2 = 4%nat /\
    length d3 = 4%nat /\ length d4 = 4%nat.
Proof.
  intros Hlen.
  do 20 (destruct digest as [|? digest]; [done|]).
  destruct digest; [|done].
  by eexists [_; _; _; _], [_; _; _; _], [_; _; _; _], [_; _; _; _], [_; _; _; _].
Qed.

Lemma thumbprint_20_bytes (digest : list byte) :
  length digest = 20%nat ->
  String.length (bytes_hex digest) = 40%nat /\
  thumbprint digest = spec_fingerprint digest /\
  fingerprint_form (thumbprint digest) = true /\
  String.length (thumbprint digest) = 44%nat.
Proof.
  intros Hlen.
  assert (String.length (bytes_hex digest) = 40%nat) as Hhex
    by (rewrite bytes_hex_length; lia).
  destruct (digest_groups digest Hlen)
    as (d0 & d1 & d2 & d3 & d4 & -> & H0 & H1 & H2 & H3 & H4).
  assert (forall d : list byte, length d = 4%nat -> String.length (bytes_hex d) = 8%nat)
    as Hg by (intros d Hd; rewrite bytes_hex_length; lia).
  assert (thumbprint (d0 ++ d1 ++ d2 ++ d3 ++ d4)%list
          = str_upper (bytes_hex d0) +:+ "-" +:+ str_upper (bytes_hex d1) +:+ "-"
            +:+ str_upper (bytes_hex d2) +:+ "-" +:+ str_upper (bytes_hex d3) +:+ "-"
            +:+ str_upper (bytes_hex d4)) as Hthumb.
  { unfold thumbprint, re_findall_dot_8_8. rewrite !bytes_hex_app.
    rewrite <- (append_nil_r (bytes_hex d4)) at 1.
    rewrite !findall_from_group by auto using bytes_hex_not_newline.
    cbv [String.concat findall_from]. by rewrite !str_upper_app. }
  assert (forall d n rest, length d = 4%nat ->
            groups_form n 8 (str_upper (bytes_hex d) +:+ rest) = groups_form n 0 rest)
    as Hgroup.
  { intros d n rest Hd. rewrite <- (Hg d Hd), <- (str_upper_length (bytes_hex d)).
    apply groups_form_group, bytes_hex_upper_hex. }
  split; [done|]. split; [|split].
  - rewrite Hthumb. unfold spec_fingerprint.
    rewrite !bytes_hex_app, five_groups_of_8_app by auto. reflexivity.
  - rewrite Hthumb. unfold fingerprint_form.
    rewrite <- (append_nil_r (str_upper (bytes_hex d4))).
    repeat (rewrite Hgroup by done; rewrite ?groups_form_hyphen). done.
  - rewrite Hthumb, !string_length_app, !str_upper_length, !Hg by done. reflexivity.
Qed.

(** ** Dates *)

Example whole_seconds_drops_microseconds :
  whole_seconds 1600000000999999 = 1600000000000000.
Proof. reflexivity. Qed.

Lemma whole_seconds_bounds t : t - 1000000 < whole_seconds t <= t.
Proof.
  unfold whole_seconds. pose proof (Z.mod_pos_bound t 1000000).
  pose proof (Z.div_mod t 1000000). lia.
Qed.

(** A number of days is a whole number of seconds. *)
Lemma whole_seconds_add_days t d :
  whole_seconds (t + timedelta_days d) = whole_seconds t + timedelta_days d.
Proof.
  unfold whole_seconds, timedelta_days.
  replace (t + d * 86400 * 1000000) with (t + (d * 86400) * 1000000) by lia.
  rewrite Z.div_add by lia. lia.
Qed.

(** ** The monad *)

Lemma bind_inr {A B} (m : M A) (k : A -> M B) w a w1 :
  m w = (inr a, w1) -> (m ≫= k) w = k a w1.
Proof. intros Hm. unfold mbind, M_bind, bind. by rewrite Hm. Qed.

Lemma bind_inv {A B} (m : M A) (k : A -> M B) w b w' :
  (m ≫= k) w = (inr b, w') ->
  exists a w1, m w = (inr a, w1) /\ k a w1 = (inr b, w').
Proof.
  unfold mbind, M_bind, bind. destruct (m w) as [[e|a] w1]; [done|]. eauto.
Qed.

Lemma set_fs_same w : set_fs (fs w) w = w.
Proof. by destruct w. Qed.

(** ** The file system *)

Lemma stat_joinpath fs0 d n : stat fs0 (d // n) = fs0 !! (d // n).
Proof. done. Qed.

Lemma is_file_lookup fs0 d n :
  is_file fs0 (d // n) = true -> exists data, fs0 !! (d // n) = Some (File data).
Proof.
  unfold is_file. rewrite stat_joinpath.
  destruct (fs0 !! (d // n)) as [[data|]|]; [eauto|done|done].
Qed.

Lemma lookup_is_file fs0 d n data :
  fs0 !! (d // n) = Some (File data) -> is_file fs0 (d // n) = true.
Proof. unfold is_file. rewrite stat_joinpath. by intros ->. Qed.

Lemma wf_parent_is_dir fs0 d n x :
  fs_wf fs0 -> fs0 !! (d // n) = Some x -> is_dir fs0 d = true.
Proof. intros Hwf Hx. exact (Hwf _ _ Hx). Qed.

(** A directory that is there is left alone. *)
Lemma mkdir_existing fs0 d :
  is_dir fs0 d = true -> mkdir_parents_exist_ok d fs0 = inr fs0.
Proof.
  unfold is_dir. destruct d as [|n d]; [done|]. simpl.
  by destruct (fs0 !! (n :: d)) as [[]|].
Qed.

Lemma mkdir_error_not_caught d fs0 e :
  mkdir_parents_exist_ok d fs0 = inl e -> install_handler_catches e = false.
Proof.
  revert e. induction d as [|n d IH]; intros e; [done|]. simpl.
  destruct (fs0 !! (n :: d)) as [[]|]; [by intros [= <-]|done|].
  destruct (stat fs0 d) as [[]|]; [by intros [= <-]|done|].
  destruct (mkdir_parents_exist_ok d fs0) as [e'|]; [|done].
  intros [= <-]. by apply IH.
Qed.

Lemma open_wb_write_inr p data fs0 fs1 :
  open_wb_write p data fs0 = inr fs1 ->
  writable fs0 p = true /\ fs1 = <[p := File data]> fs0.
Proof.
  unfold open_wb_write, writable, is_dir. destruct p as [|n parent]; [done|].
  destruct (stat fs0 parent) as [[]|]; try done.
  simpl. destruct (fs0 !! (n :: parent)) as [[]|]; naive_solver.
Qed.

Lemma open_wb_write_writable p data fs0 :
  writable fs0 p = true -> open_wb_write p data fs0 = inr (<[p := File data]> fs0).
Proof.
  unfold open_wb_write, writable, is_dir. destruct p as [|n parent]; [done|].
  destruct (stat fs0 parent) as [[]|]; try done.
  simpl. by destruct (fs0 !! (n :: parent)) as [[]|].
Qed.

Lemma open_wb_write_error_not_caught p data fs0 e :
  open_wb_write p data fs0 = inl e -> install_handler_catches e = false.
Proof.
  unfold open_wb_write. destruct p as [|n parent]; [by intros [= <-]|].
  destruct (stat fs0 parent) as [[]|]; [by intros [= <-]| |by intros [= <-]].
  destruct (fs0 !! (n :: parent)) as [[]|]; [done|by intros [= <-]|done].
Qed.

Lemma cons_neq_self {A} (x : A) (l : list A) : x :: l <> l.
Proof. intros Heq. apply (f_equal length) in Heq. simpl in Heq. lia. Qed.

(** Writing into a directory does not touch the directory's own node. *)
Lemma stat_insert_child fs0 (d : Path) n x : stat (<[d // n := x]> fs0) d = stat fs0 d.
Proof.
  destruct d as [|m d]; [done|]. unfold stat. apply lookup_insert_ne.
  apply cons_neq_self.
Qed.

Lemma ca_paths_differ (d : Path) : d // "ca.key" <> d // "ca.crt".
Proof. done. Qed.

Lemma server_paths_differ (d : Path) : d // "server.crt" <> d // "server.key".
Proof. done. Qed.

(* ===================================================================== *)
(** ** The functions of the module *)
(* ===================================================================== *)

Section Generator_properties.
Context `{Platform}.

(** [create_key] draws the key, then writes it. *)
Lemma create_key_run key_path w :
  create_key key_path w =
  match open_wb_write key_path
          (private_bytes (fresh_key w) PEM TraditionalOpenSSL NoEncryption) (fs w) with
  | inl e => (inl e, bump_rsa w)
  | inr fs1 => (inr (fresh_key w), set_fs fs1 (bump_rsa w))
  end.
Proof.
  unfold create_key, mbind, M_bind, bind, generate_private_key, write_file, lift_fs.
  simpl. fold (fresh_key w). fold (bump_rsa w).
  by destruct (open_wb_write _ _ _).
Qed.

(** [certificate_template] never fails: it reads the clock, draws a
    serial number, reads the clock again and returns the builder. *)
Lemma certificate_template_run subject issuer pk certauthority w :
  certificate_template subject issuer pk certauthority w =
  (inr {| b_subject_name := Some subject;
          b_issuer_name := Some issuer;
          b_public_key := Some pk;
          b_serial_number := Some (urandom_serial (serial_draws w));
          b_not_valid_before := Some (utcnow_reading (S (clock_reads w)));
          b_not_valid_after :=
            Some (utcnow_reading (clock_reads w)
                  + timedelta_days (if certauthority then 365 * 10 else 7));
          b_extensions :=
            [ {| critical := true;
                 extension := SubjectAlternativeName [DNSName "localhost"] |};
              {| critical := true;
                 extension := BasicConstraints certauthority None |} ] |},
   after_template w).
Proof. by destruct certauthority. Qed.

(** [create_ca], step by step. *)
Lemma create_ca_unfold args w :
  create_ca args w =
  match mkdir_parents_exist_ok user_data_dir (fs w) with
  | inl e => (inl e, w)
  | inr fs1 =>
      if negb (force args) && is_file fs1 (user_data_dir // CA_CRT_FILENAME)
      then (inl (OSError (already_exists_message (user_data_dir // CA_CRT_FILENAME))),
            set_fs fs1 w)
      else
        match open_wb_write (user_data_dir // CA_KEY_FILENAME)
                (private_bytes (fresh_key w) PEM TraditionalOpenSSL NoEncryption) fs1 with
        | inl e => (inl e, bump_rsa (set_fs fs1 w))
        | inr fs2 =>
            match open_wb_write (user_data_dir // CA_CRT_FILENAME)
                    (public_bytes (ca_certificate w) PEM) fs2 with
            | inl e => (inl e, after_template (bump_rsa (set_fs fs2 w)))
            | inr fs3 =>
                install_or_instruct (auto_install args) user_data_dir (ca_sha1 w)
                  (after_template (bump_rsa (set_fs fs3 w)))
            end
        end
  end.
Proof.
  unfold create_ca.
  unfold mbind at 1, M_bind at 1, bind at 1, Path_mkdir at 1, lift_fs at 1.
  destruct (mkdir_parents_exist_ok user_data_dir (fs w)) as [e|fs1]; [reflexivity|].
  unfold mbind at 1, M_bind at 1, bind at 1.
  destruct args as [frc auto]. cbn [force auto_install].
  assert ((if negb frc then Path_is_file (user_data_dir // CA_CRT_FILENAME) else ret false)
            (set_fs fs1 w)
          = (inr (negb frc && is_file fs1 (user_data_dir // CA_CRT_FILENAME)), set_fs fs1 w))
    as -> by (by destruct frc).
  destruct (negb frc && is_file fs1 _); [reflexivity|].
  unfold mbind at 1, M_bind at 1, bind at 1. cbv beta iota. unfold ret at 1.
  unfold mbind at 1, M_bind at 1, bind at 1. rewrite create_key_run.
  change (fs (set_fs fs1 w)) with fs1.
  change (fresh_key (set_fs fs1 w)) with (fresh_key w).
  destruct (open_wb_write (user_data_dir // CA_KEY_FILENAME) _ fs1) as [e|fs2];
    [reflexivity|].
  cbv beta iota.
  unfold mbind at 1, M_bind at 1, bind at 1. rewrite certificate_template_run.
  cbv beta iota.
  unfold mbind at 1, M_bind at 1, bind at 1. unfold sign at 1.
  cbn [b_subject_name b_issuer_name b_public_key b_serial_number
       b_not_valid_before b_not_valid_after b_extensions sign_refusal].
  unfold ret at 1. cbv beta iota.
  unfold mbind at 1, M_bind at 1, bind at 1, write_file at 1, lift_fs at 1.
  match goal with
  | |- context [open_wb_write ?p ?d (fs (after_template ?x))] =>
      change (open_wb_write p d (fs (after_template x)))
        with (open_wb_write p (public_bytes (ca_certificate w) PEM) fs2)
  end.
  destruct (open_wb_write (user_data_dir // CA_CRT_FILENAME) _ fs2) as [e|fs3];
    reflexivity.
Qed.

Lemma install_or_instruct_failed directory sha1 w :
  install_failed (spawn (certutil_command (directory // CA_CRT_FILENAME))) = true ->
  install_or_instruct true directory sha1 w
  = (inr tt, add_stdout [install_failed_message; manual_instructions directory sha1] w).
Proof.
  unfold install_or_instruct, mbind, M_bind, bind, try_except, subprocess_run_check,
    print, add_stdout.
  destruct (spawn _) as [code|e]; simpl.
  - destruct code; [done| |]; intros _; simpl; by rewrite <- app_assoc.
  - destruct e; try done. intros _. simpl. by rewrite <- app_assoc.
Qed.

Lemma install_or_instruct_not_requested directory sha1 w :
  install_or_instruct false directory sha1 w
  = (inr tt, add_stdout [manual_instructions directory sha1] w).
Proof. reflexivity. Qed.

(** Installing and printing change the files only through certutil, and
    only when it exits with status 0. *)
Lemma install_or_instruct_fs auto directory sha1 w r w' :
  install_or_instruct auto directory sha1 w = (r, w') ->
  fs w' = fs w \/
  (auto = true /\
   spawn (certutil_command (directory // CA_CRT_FILENAME)) = Exited 0 /\
   fs w' = spawn_writes (certutil_command (directory // CA_CRT_FILENAME)) (fs w)).
Proof.
  unfold install_or_instruct, mbind, M_bind, bind, try_except, subprocess_run_check,
    print, lift_fs.
  destruct auto; [|intros [= <- <-]; by left].
  destruct (spawn _) as [code|e]; simpl.
  - destruct code; intros [= <- <-]; [by right|by left..].
  - destruct (install_handler_catches e); intros [= <- <-]; by left.
Qed.

(** They leave the user data directory as it is. *)
Lemma install_or_instruct_keeps_user_data auto directory sha1 w r w' q :
  install_or_instruct auto directory sha1 w = (r, w') ->
  user_data_dir `suffix_of` q ->
  fs w' !! q = fs w !! q.
Proof.
  intros Hrun Hq. apply install_or_instruct_fs in Hrun as [->|(_ & _ & ->)]; [done|].
  by apply spawn_keeps_user_data.
Qed.

Lemma user_data_dir_suffix_file name : user_data_dir `suffix_of` user_data_dir // name.
Proof. by exists [name]. Qed.

Lemma install_or_instruct_returns auto directory sha1 w :
  auto = false \/
  install_raises (spawn (certutil_command (directory // CA_CRT_FILENAME))) = false ->
  (install_or_instruct auto directory sha1 w).1 = inr tt.
Proof.
  unfold install_or_instruct, mbind, M_bind, bind, try_except, subprocess_run_check,
    print, install_raises.
  destruct auto; [|done]. intros [|Hr]; [done|].
  destruct (spawn _) as [code|e]; simpl.
  - by destruct code.
  - by destruct (install_handler_catches e).
Qed.

(** What a successful [create_ca] leaves on disk. *)
Lemma create_ca_inv args w w' :
  create_ca args w = (inr tt, w') ->
  fs w' !! (user_data_dir // CA_KEY_FILENAME)
    = Some (File (private_bytes (fresh_key w) PEM TraditionalOpenSSL NoEncryption)) /\
  fs w' !! (user_data_dir // CA_CRT_FILENAME)
    = Some (File (public_bytes (ca_certificate w) PEM)).
Proof.
  rewrite create_ca_unfold.
  destruct (mkdir_parents_exist_ok _ _) as [e|fs1]; [done|].
  destruct (negb (force args) && _); [done|].
  destruct (open_wb_write _ _ fs1) as [e|fs2] eqn:Hkey; [done|].
  destruct (open_wb_write _ _ fs2) as [e|fs3] eqn:Hcrt; [done|].
  intros Hrun.
  rewrite !(install_or_instruct_keeps_user_data _ _ _ _ _ _ _ Hrun)
    by apply user_data_dir_suffix_file.
  simpl.
  apply open_wb_write_inr in Hkey as [_ ->]. apply open_wb_write_inr in Hcrt as [_ ->].
  split.
  - rewrite lookup_insert_ne by (symmetry; apply ca_paths_differ).
    apply lookup_insert_eq.
  - apply lookup_insert_eq.
Qed.

(** The key and the certificate written by one [create_ca] belong
    together, and the certificate is its own issuer. *)
Lemma create_ca_files_match args w w' :
  create_ca args w = (inr tt, w') ->
  exists key cert,
    fs w' !! (user_data_dir // CA_KEY_FILENAME)
      = Some (File (private_bytes key PEM TraditionalOpenSSL NoEncryption)) /\
    fs w' !! (user_data_dir // CA_CRT_FILENAME) = Some (File (public_bytes cert PEM)) /\
    cert_public_key cert = public_key key /\
    verify_directly_issued_by cert cert.
Proof.
  intros Hrun. destruct (create_ca_inv _ _ _ Hrun) as [Hkey Hcrt].
  exists (fresh_key w), (ca_certificate w). by repeat split.
Qed.

(** What a successful [create_certificate] found and what it leaves. *)
Lemma create_certificate_inv directory w w' :
  create_certificate directory w = (inr tt, w') ->
  exists ca_key format ca_crt,
    fs w !! (user_data_dir // CA_KEY_FILENAME)
      = Some (File (private_bytes ca_key PEM format NoEncryption)) /\
    fs w !! (user_data_dir // CA_CRT_FILENAME)
      = Some (File (public_bytes ca_crt PEM)) /\
    writable (fs w) (directory // SERVER_KEY_FILENAME) = true /\
    fs w' =
      <[directory // SERVER_CRT_FILENAME :=
          File (public_bytes (server_certificate w ca_key ca_crt) PEM)]>
        (<[directory // SERVER_KEY_FILENAME :=
             File (private_bytes (fresh_key w) PEM TraditionalOpenSSL NoEncryption)]>
           (fs w)) /\
    stdout w' = stdout w /\
    signs_with_hash ca_key = true.
Proof.
  unfold create_certificate. intros Hrun.
  apply bind_inv in Hrun as (key_found & wa & Hk & Hrun).
  unfold Path_is_file in Hk. injection Hk as <- <-.
  apply bind_inv in Hrun as (missing & wb & Hm & Hrun).
  apply bind_inv in Hrun as ([] & wc & Hg & Hrun).
  destruct missing; [done|]. injection Hg as <-.
  destruct (is_file (fs w) (user_data_dir // CA_KEY_FILENAME)) eqn:Hkey;
    simpl in Hm; [|done].
  unfold mbind, M_bind, bind, Path_is_file, ret in Hm. simpl in Hm.
  destruct (is_file (fs w) (user_data_dir // CA_CRT_FILENAME)) eqn:Hcrt;
    simpl in Hm; [|done].
  injection Hm as <-.
  apply is_file_lookup in Hkey as [kdata Hkey].
  apply is_file_lookup in Hcrt as [cdata Hcrt].
  apply bind_inv in Hrun as (data & wd & Hr & Hrun).
  unfold read_file, open_rb_read in Hr. rewrite stat_joinpath, Hkey in Hr.
  injection Hr as <- <-.
  apply bind_inv in Hrun as (ca_key & we & Hl & Hrun).
  destruct kdata as [k [] f []| |]; try done. injection Hl as <- <-.
  apply bind_inv in Hrun as (data & wf & Hr & Hrun).
  unfold read_file, open_rb_read in Hr. rewrite stat_joinpath, Hcrt in Hr.
  injection Hr as <- <-.
  apply bind_inv in Hrun as (ca_crt & wg & Hl & Hrun).
  destruct cdata as [|c []|]; try done. injection Hl as <- <-.
  apply bind_inv in Hrun as (server_key & wh & Hsk & Hrun).
  rewrite create_key_run in Hsk.
  destruct (open_wb_write _ _ (fs w)) as [|fs1] eqn:Hw1 in Hsk; [done|].
  injection Hsk as <- <-.
  apply open_wb_write_inr in Hw1 as [Hwr ->].
  apply bind_inv in Hrun as (builder & wi & Hb & Hrun).
  rewrite certificate_template_run in Hb. injection Hb as <- <-.
  apply bind_inv in Hrun as (crt & wj & Hs & Hrun).
  unfold sign, add_extension in Hs.
  cbn [b_subject_name b_issuer_name b_public_key b_serial_number
       b_not_valid_before b_not_valid_after b_extensions app] in Hs.
  destruct (sign_refusal k) as [e|] eqn:Hsign; [discriminate Hs|].
  injection Hs as <- <-.
  unfold write_file, lift_fs in Hrun.
  destruct (open_wb_write _ _ _) as [|fs2] eqn:Hw2 in Hrun; [done|].
  injection Hrun as <-.
  apply open_wb_write_inr in Hw2 as [_ ->].
  exists k, f, c. unfold signs_with_hash. rewrite Hsign. done.
Qed.

(** A server certificate issued from the files of one [create_ca]
    verifies against the CA certificate. *)
Lemma create_ca_then_create_certificate args directory w w1 w2 :
  create_ca args w = (inr tt, w1) ->
  create_certificate directory w1 = (inr tt, w2) ->
  exists ca_crt crt,
    fs w1 !! (user_data_dir // CA_CRT_FILENAME) = Some (File (public_bytes ca_crt PEM)) /\
    fs w2 !! (directory // SERVER_CRT_FILENAME) = Some (File (public_bytes crt PEM)) /\
    verify_directly_issued_by crt ca_crt.
Proof.
  intros Hca Hissue.
  destruct (create_ca_inv _ _ _ Hca) as [Hkey Hcrt].
  destruct (create_certificate_inv _ _ _ Hissue)
    as (ca_key & format & ca_crt & Hkey' & Hcrt' & _ & Hfs & _).
  rewrite Hkey in Hkey'. injection Hkey' as <- _.
  rewrite Hcrt in Hcrt'. injection Hcrt' as <-.
  exists (ca_certificate w), (server_certificate w1 (fresh_key w) (ca_certificate w)).
  split; [done|]. split; [rewrite Hfs; apply lookup_insert_eq|]. by repeat split.
Qed.

(* --------------------------------------------------------------------- *)
(** ** Server certificates need a complete CA *)
(* --------------------------------------------------------------------- *)

(** C1.  When [ca.key] or [ca.crt] (or both) is not a file in the user
    data directory, [create_certificate] raises the error that tells the
    operator to run [webviz certificate --auto-install] first
    ([RuntimeError] in the code, the specification's CaNotFoundError),
    and the world is left exactly as it was: no file is written, in the
    output directory or anywhere else.  A CA with only one of its two
    files is such a case. *)
Theorem create_certificate_without_ca directory w :
  is_file (fs w) (user_data_dir // CA_KEY_FILENAME) = false \/
  is_file (fs w) (user_data_dir // CA_CRT_FILENAME) = false ->
  create_certificate directory w = (inl (RuntimeError ca_not_found_message), w).
Proof.
  intros Hmissing. unfold create_certificate.
  unfold mbind, M_bind, bind, Path_is_file; simpl.
  destruct (is_file (fs w) (user_data_dir // CA_KEY_FILENAME)); simpl; [|done].
  destruct (is_file (fs w) (user_data_dir // CA_CRT_FILENAME)); simpl; [|done].
  by destruct Hmissing.
Qed.

(* --------------------------------------------------------------------- *)
(** ** An existing CA is kept unless forced *)
(* --------------------------------------------------------------------- *)

(** C2.  Without [--force], when [ca.crt] already is a file in the user
    data directory, [create_ca] raises the error naming that path and the
    [--force] flag ([OSError] in the code, the specification's
    AlreadyExistsError), and the world is left exactly as it was: both CA
    files keep their contents and nothing was written before the check. *)
Theorem create_ca_refuses_existing auto w :
  fs_wf (fs w) ->
  is_file (fs w) (user_data_dir // CA_CRT_FILENAME) = true ->
  create_ca {| force := false; auto_install := auto |} w
  = (inl (OSError ("The file " +:+ path_str (user_data_dir // CA_CRT_FILENAME)
                   +:+ " already exists. Add the "
                   +:+ "command line flag --force if you want to overwrite")),
     w).
Proof.
  intros Hwf Hcrt.
  destruct (is_file_lookup _ _ _ Hcrt) as [data Hdata].
  pose proof (mkdir_existing _ _ (wf_parent_is_dir _ _ _ _ Hwf Hdata)) as Hmk.
  rewrite create_ca_unfold, Hmk. cbn [force negb andb].
  by rewrite Hcrt, set_fs_same.
Qed.

(** C10.  The guard of [create_ca] looks at [ca.crt] only.  With
    [ca.key] a file and [ca.crt] not, [create_ca] without [--force] does
    not stop: whatever happens afterwards, [ca.key] then holds the newly
    generated key; and when nothing is in the way of [ca.crt] and the
    installation does not raise, the call returns normally. *)
Theorem create_ca_guard_ignores_key auto w old :
  fs_wf (fs w) ->
  fs w !! (user_data_dir // CA_KEY_FILENAME) = Some (File old) ->
  is_file (fs w) (user_data_dir // CA_CRT_FILENAME) = false ->
  let '(r, w') := create_ca {| force := false; auto_install := auto |} w in
  fs w' !! (user_data_dir // CA_KEY_FILENAME)
    = Some (File (private_bytes
                    {| public_exponent := 65537; key_size := 2048;
                       key_material := rsa_draws w |}
                    PEM TraditionalOpenSSL NoEncryption)) /\
  (fs w !! (user_data_dir // CA_CRT_FILENAME) = None ->
   auto = false \/
   install_raises (spawn (certutil_command (user_data_dir // CA_CRT_FILENAME))) = false ->
   r = inr tt).
Proof.
  intros Hwf Hkey Hcrt.
  pose proof (wf_parent_is_dir _ _ _ _ Hwf Hkey) as Hdir.
  rewrite create_ca_unfold, (mkdir_existing _ _ Hdir), Hcrt.
  cbn [force auto_install negb andb].
  assert (writable (fs w) (user_data_dir // CA_KEY_FILENAME) = true) as Hwr.
  { unfold writable, joinpath, is_dir at 2. rewrite Hdir.
    change (stat (fs w) (CA_KEY_FILENAME :: user_data_dir))
      with (fs w !! (user_data_dir // CA_KEY_FILENAME)).
    by rewrite Hkey. }
  rewrite (open_wb_write_writable _ _ _ Hwr).
  fold (fresh_key w).
  set (fs2 := <[user_data_dir // CA_KEY_FILENAME := _]> (fs w)).
  assert (fs2 !! (user_data_dir // CA_KEY_FILENAME)
          = Some (File (private_bytes (fresh_key w) PEM TraditionalOpenSSL NoEncryption)))
    as Hnew by apply lookup_insert_eq.
  destruct (open_wb_write (user_data_dir // CA_CRT_FILENAME) _ fs2) as [e|fs3] eqn:Hw.
  - split; [done|]. intros Hnone _. exfalso.
    assert (writable fs2 (user_data_dir // CA_CRT_FILENAME) = true) as Hwr2.
    { unfold writable, joinpath, is_dir.
      change (stat fs2 (CA_CRT_FILENAME :: user_data_dir))
        with (fs2 !! (user_data_dir // CA_CRT_FILENAME)).
      unfold fs2. rewrite stat_insert_child.
      rewrite lookup_insert_ne by apply ca_paths_differ.
      unfold is_dir in Hdir. by rewrite Hnone, Hdir. }
    by rewrite (open_wb_write_writable _ _ _ Hwr2) in Hw.
  - apply open_wb_write_inr in Hw as [_ ->].
    destruct (install_or_instruct _ _ _ _) as [r w'] eqn:Hrun.
    split.
    + rewrite (install_or_instruct_keeps_user_data _ _ _ _ _ _ _ Hrun)
        by apply user_data_dir_suffix_file.
      simpl. by rewrite lookup_insert_ne by (symmetry; apply ca_paths_differ).
    + intros _ Hinst.
      apply (install_or_instruct_returns _ _ (ca_sha1 w)
               (after_template (bump_rsa
                  (set_fs (<[user_data_dir // CA_CRT_FILENAME :=
                               File (public_bytes (ca_certificate w) PEM)]> fs2) w))))
        in Hinst.
      by rewrite Hrun in Hinst.
Qed.

(* --------------------------------------------------------------------- *)
(** ** The key generator *)
(* --------------------------------------------------------------------- *)

(** C9.  Where the path can be opened for writing, [create_key] returns
    an RSA key with public exponent 65537 and 2048 bits; the file at the
    path then holds that key as unencrypted PEM in the traditional
    format, whatever it held before; no other file changes; and the key
    returned is the key in the file, so that loading the file again
    gives nothing new. *)
Theorem create_key_generates_and_persists key_path w :
  writable (fs w) key_path = true ->
  exists key w',
    create_key key_path w = (inr key, w') /\
    public_exponent key = 65537 /\
    key_size key = 2048 /\
    fs w' = <[key_path := File (private_bytes key PEM TraditionalOpenSSL NoEncryption)]>
              (fs w) /\
    (data ← read_file key_path; load_pem_private_key data) w' = (inr (RSAKey key), w').
Proof.
  intros Hwr. exists (fresh_key w). eexists.
  rewrite create_key_run, (open_wb_write_writable _ _ _ Hwr).
  split; [reflexivity|]. split; [done|]. split; [done|]. split; [done|].
  unfold mbind, M_bind, bind, read_file, open_rb_read. simpl.
  destruct key_path as [|n parent]; [done|].
  unfold stat. by rewrite lookup_insert_eq.
Qed.

(* --------------------------------------------------------------------- *)
(** ** The certificate template *)
(* --------------------------------------------------------------------- *)

(** C3.  [certificate_template] reads the clock twice: the first reading
    plus the period is [not_valid_after], the second reading is
    [not_valid_before].  The period is ten years of 365 days for a CA and
    seven days otherwise.  So the window of the template is the period
    less the time between the two readings, and it is within any
    tolerance that this time is within.  The CA certificate written by
    [create_ca] and the server certificate written by
    [create_certificate] hold the two dates cut to whole seconds: their
    window is the period less the whole seconds between the two
    readings, and it is within the tolerance and one second. *)
Theorem certificate_validity_window subject issuer pk certauthority w :
  let first := utcnow_reading (clock_reads w) in
  let second := utcnow_reading (S (clock_reads w)) in
  let period (is_ca : bool) := timedelta_days (if is_ca then 365 * 10 else 7) in
  let window (cert : Certificate) :=
    cert_not_valid_after cert - cert_not_valid_before cert in
  (exists b w',
     certificate_template subject issuer pk certauthority w = (inr b, w') /\
     b_not_valid_before b = Some second /\
     b_not_valid_after b = Some (first + period certauthority) /\
     (first + period certauthority) - second
       = period certauthority - (second - first) /\
     forall tolerance,
       Z.abs (second - first) <= tolerance ->
       Z.abs ((first + period certauthority) - second - period certauthority)
         <= tolerance) /\
  (forall args w',
     create_ca args w = (inr tt, w') ->
     exists cert,
       fs w' !! (user_data_dir // CA_CRT_FILENAME) = Some (File (public_bytes cert PEM)) /\
       cert_not_valid_before cert = whole_seconds second /\
       cert_not_valid_after cert = whole_seconds first + period true /\
       window cert = period true - (whole_seconds second - whole_seconds first) /\
       forall tolerance,
         Z.abs (second - first) <= tolerance ->
         Z.abs (window cert - period true) < tolerance + 1000000) /\
  (forall directory w',
     create_certificate directory w = (inr tt, w') ->
     exists cert,
       fs w' !! (directory // SERVER_CRT_FILENAME)
         = Some (File (public_bytes cert PEM)) /\
       cert_not_valid_before cert = whole_seconds second /\
       cert_not_valid_after cert = whole_seconds first + period false /\
       window cert = period false - (whole_seconds second - whole_seconds first) /\
       forall tolerance,
         Z.abs (second - first) <= tolerance ->
         Z.abs (window cert - period false) < tolerance + 1000000).
Proof.
  cbv zeta. split; [|split].
  - eexists _, _. rewrite certificate_template_run.
    split; [reflexivity|]. cbn [b_not_valid_before b_not_valid_after].
    split; [done|]. split; [done|]. split; [lia|]. intros tolerance. lia.
  - intros args w' Hrun. destruct (create_ca_inv _ _ _ Hrun) as [_ Hcrt].
    exists (ca_certificate w). split; [done|]. simpl.
    rewrite whole_seconds_add_days.
    pose proof (whole_seconds_bounds (utcnow_reading (clock_reads w))).
    pose proof (whole_seconds_bounds (utcnow_reading (S (clock_reads w)))).
    split; [done|]. split; [done|]. split; [lia|]. intros tolerance. lia.
  - intros directory w' Hrun.
    destruct (create_certificate_inv _ _ _ Hrun)
      as (ca_key & format & ca_crt & _ & _ & _ & Hfs & _).
    exists (server_certificate w ca_key ca_crt).
    split; [rewrite Hfs; apply lookup_insert_eq|]. simpl.
    rewrite whole_seconds_add_days.
    pose proof (whole_seconds_bounds (utcnow_reading (clock_reads w))).
    pose proof (whole_seconds_bounds (utcnow_reading (S (clock_reads w)))).
    split; [done|]. split; [done|]. split; [lia|]. intros tolerance. lia.
Qed.

(** C4.  The builder returned by [certificate_template], for a CA and
    for a leaf alike, has exactly two extensions: the subject alternative
    name with the one entry DNSName localhost, critical, and the basic
    constraints with the CA flag as given and no path length, critical. *)
Theorem certificate_template_extensions subject issuer pk certauthority w :
  exists b w',
    certificate_template subject issuer pk certauthority w = (inr b, w') /\
    b_extensions b =
      [ {| critical := true;
           extension := SubjectAlternativeName [DNSName "localhost"] |};
        {| critical := true;
           extension := BasicConstraints certauthority None |} ].
Proof. eexists _, _. rewrite certificate_template_run. by split. Qed.

(* --------------------------------------------------------------------- *)
(** ** The server certificate *)
(* --------------------------------------------------------------------- *)

(** C5.  The certificate that [create_certificate] writes to
    [server.crt] was signed with these four extensions, in this order:
    the two of the template, then the key usage, critical, with digital
    signature, key encipherment and content commitment set and every
    other usage unset, then the authority key identifier, not critical,
    made from the public key of the CA key that signs. *)
Theorem create_certificate_extensions directory w w' :
  create_certificate directory w = (inr tt, w') ->
  exists ca_key format crt,
    fs w !! (user_data_dir // CA_KEY_FILENAME)
      = Some (File (private_bytes ca_key PEM format NoEncryption)) /\
    fs w' !! (directory // SERVER_CRT_FILENAME) = Some (File (public_bytes crt PEM)) /\
    signer (cert_signature crt) = ca_key /\
    cert_extensions crt =
      [ {| critical := true;
           extension := SubjectAlternativeName [DNSName "localhost"] |};
        {| critical := true; extension := BasicConstraints false None |};
        {| critical := true;
           extension :=
             KeyUsageExt
               {| digital_signature := true;
                  key_encipherment := true;
                  content_commitment := true;
                  data_encipherment := false;
                  key_agreement := false;
                  encipher_only := false;
                  decipher_only := false;
                  key_cert_sign := false;
                  crl_sign := false |} |};
        {| critical := false;
           extension := AuthorityKeyIdentifier (public_key ca_key) |} ].
Proof.
  intros Hrun.
  destruct (create_certificate_inv _ _ _ Hrun)
    as (ca_key & format & ca_crt & Hkey & _ & _ & Hfs & _).
  exists ca_key, format, (server_certificate w ca_key ca_crt).
  split; [done|]. split; [rewrite Hfs; apply lookup_insert_eq|]. done.
Qed.

(** C6, as amended.  The certificate that [create_certificate] writes
    has the static identity as subject, the subject of the CA certificate
    on disk as issuer, the public key of the server key written next to
    it, the CA flag unset, and the signature of the CA key on disk under
    SHA-256.  It verifies against the CA certificate on disk whenever
    that certificate carries the public key of the CA key on disk;
    [create_certificate] itself does not compare the two files. *)
Theorem create_certificate_chain directory w w' :
  create_certificate directory w = (inr tt, w') ->
  exists ca_key format ca_crt (server_key : RSAPrivateKey) crt,
    fs w !! (user_data_dir // CA_KEY_FILENAME)
      = Some (File (private_bytes ca_key PEM format NoEncryption)) /\
    fs w !! (user_data_dir // CA_CRT_FILENAME) = Some (File (public_bytes ca_crt PEM)) /\
    fs w' !! (directory // SERVER_KEY_FILENAME)
      = Some (File (private_bytes server_key PEM TraditionalOpenSSL NoEncryption)) /\
    fs w' !! (directory // SERVER_CRT_FILENAME) = Some (File (public_bytes crt PEM)) /\
    cert_subject crt = NAME /\
    cert_issuer crt = cert_subject ca_crt /\
    cert_public_key crt = public_key server_key /\
    In {| critical := true; extension := BasicConstraints false None |}
       (cert_extensions crt) /\
    cert_signature crt = {| signer := ca_key; signature_hash := SHA256 |} /\
    (cert_public_key ca_crt = public_key ca_key ->
     verify_directly_issued_by crt ca_crt).
Proof.
  intros Hrun.
  destruct (create_certificate_inv _ _ _ Hrun)
    as (ca_key & format & ca_crt & Hkey & Hcrt & _ & Hfs & _).
  exists ca_key, format, ca_crt, (fresh_key w), (server_certificate w ca_key ca_crt).
  split; [done|]. split; [done|].
  split.
  { rewrite Hfs, lookup_insert_ne by apply server_paths_differ.
    apply lookup_insert_eq. }
  split; [rewrite Hfs; apply lookup_insert_eq|].
  split; [done|]. split; [done|]. split; [done|].
  split; [simpl; tauto|]. split; [done|].
  intros Hmatch. by repeat split.
Qed.

(* --------------------------------------------------------------------- *)
(** ** Installing the CA certificate *)
(* --------------------------------------------------------------------- *)

(** C7.  Let certutil be denied permission or exit non-zero.  Then
    [create_ca --auto-install] ends as [create_ca] without the flag
    does: with the same result and the same files.  Where that is a
    normal return, it has printed the warning and then the instructions
    for installing by hand.  Whatever it raises was not raised by the
    installation: it is none of the exceptions of the handler. *)
Theorem create_ca_install_failure_not_fatal frc w :
  install_failed (spawn (certutil_command (user_data_dir // CA_CRT_FILENAME))) = true ->
  let '(r0, w0) := create_ca {| force := frc; auto_install := false |} w in
  let '(r1, w1) := create_ca {| force := frc; auto_install := true |} w in
  r1 = r0 /\ fs w1 = fs w0 /\
  (forall e, r1 = inl e -> install_handler_catches e = false) /\
  (r0 = inr tt ->
   exists sha1,
     stdout w0 = (stdout w ++ [manual_instructions user_data_dir sha1])%list /\
     stdout w1 = (stdout w ++ [install_failed_message;
                               manual_instructions user_data_dir sha1])%list).
Proof.
  intros Hfail. rewrite !create_ca_unfold. cbn [force auto_install].
  destruct (mkdir_parents_exist_ok _ _) as [e|fs1] eqn:Hmk.
  { repeat split; [|done]. intros ? [= <-]. by eapply mkdir_error_not_caught. }
  destruct (negb frc && _).
  { repeat split; [|done]. by intros ? [= <-]. }
  destruct (open_wb_write _ _ fs1) as [e|fs2] eqn:Hkey.
  { repeat split; [|done]. intros ? [= <-]. by eapply open_wb_write_error_not_caught. }
  destruct (open_wb_write _ _ fs2) as [e|fs3] eqn:Hcrt.
  { repeat split; [|done]. intros ? [= <-]. by eapply open_wb_write_error_not_caught. }
  rewrite install_or_instruct_failed by done.
  rewrite install_or_instruct_not_requested.
  repeat split; [done|]. intros _. by exists (ca_sha1 w).
Qed.

(** An exception of the installation that the handler does not name
    (certutil not being installed, say) does pass through [create_ca],
    after the CA files were written. *)
Lemma create_ca_install_exception_passes frc w w0 e :
  spawn (certutil_command (user_data_dir // CA_CRT_FILENAME)) = SpawnFailed e ->
  install_handler_catches e = false ->
  create_ca {| force := frc; auto_install := false |} w = (inr tt, w0) ->
  exists w1,
    create_ca {| force := frc; auto_install := true |} w = (inl e, w1) /\
    fs w1 = fs w0.
Proof.
  intros Hspawn Hcatch. rewrite !create_ca_unfold. cbn [force auto_install].
  destruct (mkdir_parents_exist_ok _ _) as [|fs1]; [done|].
  destruct (negb frc && _); [done|].
  destruct (open_wb_write _ _ fs1) as [|fs2]; [done|].
  destruct (open_wb_write _ _ fs2) as [|fs3]; [done|].
  rewrite install_or_instruct_not_requested. intros [= <-].
  unfold install_or_instruct, mbind, M_bind, bind, try_except, subprocess_run_check.
  rewrite Hspawn. unfold raise. rewrite Hcatch. by eexists.
Qed.

(** C8.  The thumbprint that [create_ca] computes from the SHA-1
    fingerprint of a certificate is the fingerprint of the
    specification: the forty hex digits of the digest, split into five
    groups of eight, in upper case, joined by hyphens; it has the form
    XXXXXXXX-XXXXXXXX-XXXXXXXX-XXXXXXXX-XXXXXXXX.  It is the thumbprint
    of the certificate in [ca.crt] that the instructions show. *)
Theorem thumbprint_format (cert : Certificate) w :
  let digest := fingerprint cert SHA1 in
  (String.length (bytes_hex digest) = 40%nat /\
   thumbprint digest = spec_fingerprint digest /\
   fingerprint_form (thumbprint digest) = true /\
   String.length (thumbprint digest) = 44%nat) /\
  (forall frc w',
     create_ca {| force := frc; auto_install := false |} w = (inr tt, w') ->
     exists ca_crt,
       fs w' !! (user_data_dir // CA_CRT_FILENAME)
         = Some (File (public_bytes ca_crt PEM)) /\
       stdout w' =
         (stdout w ++ [manual_instructions user_data_dir
                         (spec_fingerprint (fingerprint ca_crt SHA1))])%list).
Proof.
  cbv zeta. split.
  - apply thumbprint_20_bytes, (fingerprint_size cert SHA1).
  - intros frc w' Hrun. exists (ca_certificate w).
    split; [by apply (create_ca_inv _ _ _ Hrun)|].
    destruct (thumbprint_20_bytes _ (fingerprint_size (ca_certificate w) SHA1))
      as (_ & <- & _).
    revert Hrun. rewrite create_ca_unfold. cbn [force auto_install].
    destruct (mkdir_parents_exist_ok _ _) as [e|fs1]; [done|].
    destruct (negb frc && _); [done|].
    destruct (open_wb_write _ _ fs1) as [e|fs2]; [done|].
    destruct (open_wb_write _ _ fs2) as [e|fs3]; [done|].
    rewrite install_or_instruct_not_requested. by intros [= <-].
Qed.

End Generator_properties.

(* ===================================================================== *)
(** * The properties on a concrete machine *)
(* ===================================================================== *)

Lemma fs_wf_by_computation (fs0 : FS) : bool_decide (fs_wf fs0) = true -> fs_wf fs0.
Proof. intros Hb. eapply bool_decide_eq_true_1. exact Hb. Qed.

(** With [ca.key] in place and [ca.crt] gone, no server certificate is
    made and [/tmp] stays empty. *)
Lemma create_certificate_without_ca_witness :
  is_file (fs world_with_ca_key_only)
    (@user_data_dir (demo_platform (Exited 1)) // "ca.key") = true /\
  @create_certificate (demo_platform (Exited 1)) ["tmp"] world_with_ca_key_only
  = (inl (RuntimeError ca_not_found_message), world_with_ca_key_only).
Proof.
  split; [vm_compute; reflexivity|].
  apply (@create_certificate_without_ca (demo_platform (Exited 1))).
  right. vm_compute. reflexivity.
Defined.

(** A second [webviz certificate] on the machine that has a CA. *)
Lemma create_ca_refuses_existing_witness :
  @create_ca (demo_platform (Exited 1)) {| force := false; auto_install := true |}
    world_with_ca
  = (inl (OSError
            ("The file /home/alice/.local/share/webviz/ca.crt already exists. "
             +:+ "Add the command line flag --force if you want to overwrite")),
     world_with_ca).
Proof.
  apply (@create_ca_refuses_existing (demo_platform (Exited 1)) true world_with_ca).
  - apply fs_wf_by_computation. vm_compute. reflexivity.
  - vm_compute. reflexivity.
Defined.

(** On the machine that lost [ca.crt], [webviz certificate] replaces the
    key of the first run by a new one and returns. *)
Lemma create_ca_guard_ignores_key_witness :
  fs world_with_ca_key_only !! (@user_data_dir (demo_platform (Exited 1)) // "ca.key")
  = Some (File (private_bytes
                  {| public_exponent := 65537; key_size := 2048; key_material := 0 |}
                  PEM TraditionalOpenSSL NoEncryption)) /\
  let '(r, w') :=
    @create_ca (demo_platform (Exited 1)) {| force := false; auto_install := false |}
      world_with_ca_key_only in
  r = inr tt /\
  fs w' !! (@user_data_dir (demo_platform (Exited 1)) // "ca.key")
  = Some (File (private_bytes
                  {| public_exponent := 65537; key_size := 2048; key_material := 1 |}
                  PEM TraditionalOpenSSL NoEncryption)).
Proof.
  split; [vm_compute; reflexivity|].
  pose proof (@create_ca_guard_ignores_key (demo_platform (Exited 1)) false
                world_with_ca_key_only
                (private_bytes
                   {| public_exponent := 65537; key_size := 2048; key_material := 0 |}
                   PEM TraditionalOpenSSL NoEncryption)) as Hthm.
  destruct (@create_ca (demo_platform (Exited 1)) _ world_with_ca_key_only) as [r w'].
  destruct Hthm as [Hkey Hret].
  - apply fs_wf_by_computation. vm_compute. reflexivity.
  - vm_compute. reflexivity.
  - vm_compute. reflexivity.
  - split.
    + apply Hret; [vm_compute; reflexivity|]. left. reflexivity.
    + exact Hkey.
Defined.

(** A key written into [/tmp]. *)
Lemma create_key_generates_and_persists_witness :
  exists key w',
    create_key (["tmp"] // "server.key") fresh_world = (inr key, w') /\
    public_exponent key = 65537 /\
    key_size key = 2048 /\
    fs w' = <[["tmp"] // "server.key" :=
                File (private_bytes key PEM TraditionalOpenSSL NoEncryption)]>
              (fs fresh_world) /\
    (data ← read_file (["tmp"] // "server.key"); load_pem_private_key data) w'
    = (inr (RSAKey key), w').
Proof.
  apply (create_key_generates_and_persists (["tmp"] // "server.key") fresh_world).
  vm_compute. reflexivity.
Defined.

(** The clock of the machine ticks 250 microseconds between two
    readings: the CA certificate of the first run is valid for ten years
    of 365 days, to within a second and 250 microseconds. *)
Lemma certificate_validity_window_witness :
  exists cert,
    fs world_with_ca !! (@user_data_dir (demo_platform (Exited 1)) // "ca.crt")
      = Some (File (public_bytes cert PEM)) /\
    Z.abs (cert_not_valid_after cert - cert_not_valid_before cert
           - 3650 * 86400 * 1000000) < 250 + 1000000.
Proof.
  destruct (@certificate_validity_window (demo_platform (Exited 1))
              [] [] (public_key foreign_key) true fresh_world)
    as (_ & Hca & _).
  destruct (Hca {| force := false; auto_install := true |} world_with_ca)
    as (cert & Hfile & _ & _ & _ & Htol).
  - vm_compute. reflexivity.
  - exists cert. split; [exact Hfile|].
    apply (Htol 250). vm_compute. discriminate.
Defined.

(** A server certificate made in [/tmp] on the machine that has a CA. *)
Lemma create_certificate_extensions_witness :
  exists ca_key crt,
    fs (snd (@create_certificate (demo_platform (Exited 1)) ["tmp"] world_with_ca))
      !! (["tmp"] // "server.crt") = Some (File (public_bytes crt PEM)) /\
    signer (cert_signature crt) = ca_key /\
    cert_extensions crt =
      [ {| critical := true;
           extension := SubjectAlternativeName [DNSName "localhost"] |};
        {| critical := true; extension := BasicConstraints false None |};
        {| critical := true; extension := KeyUsageExt server_key_usage |};
        {| critical := false;
           extension := AuthorityKeyIdentifier (public_key ca_key) |} ].
Proof.
  destruct (@create_certificate_extensions (demo_platform (Exited 1)) ["tmp"]
              world_with_ca
              (snd (@create_certificate (demo_platform (Exited 1)) ["tmp"] world_with_ca)))
    as (ca_key & format & crt & _ & Hfile & Hsig & Hext).
  - vm_compute. reflexivity.
  - exists ca_key, crt. split; [exact Hfile|]. split; [exact Hsig|exact Hext].
Defined.

(** The same server certificate verifies against the CA certificate of
    the machine. *)
Lemma create_certificate_chain_witness :
  exists crt ca_crt,
    fs world_with_ca !! (@user_data_dir (demo_platform (Exited 1)) // "ca.crt")
      = Some (File (public_bytes ca_crt PEM)) /\
    fs (snd (@create_certificate (demo_platform (Exited 1)) ["tmp"] world_with_ca))
      !! (["tmp"] // "server.crt") = Some (File (public_bytes crt PEM)) /\
    verify_directly_issued_by crt ca_crt.
Proof.
  destruct (@create_certificate_chain (demo_platform (Exited 1)) ["tmp"]
              world_with_ca
              (snd (@create_certificate (demo_platform (Exited 1)) ["tmp"] world_with_ca)))
    as (ca_key & format & ca_crt & server_key & crt
        & Hkey & Hcrt & _ & Hfile & _ & _ & _ & _ & _ & Hverify).
  - vm_compute. reflexivity.
  - exists crt, ca_crt. split; [exact Hcrt|]. split; [exact Hfile|].
    apply Hverify.
    assert (Some (File (public_bytes ca_crt PEM))
            = Some (File (public_bytes
                            (@ca_certificate (demo_platform (Exited 1)) fresh_world)
                            PEM))) as Hc.
    { rewrite <- Hcrt. vm_compute. reflexivity. }
    assert (Some (File (private_bytes ca_key PEM format NoEncryption))
            = Some (File (private_bytes (fresh_key fresh_world) PEM
                            TraditionalOpenSSL NoEncryption))) as Hk.
    { rewrite <- Hkey. vm_compute. reflexivity. }
    injection Hc as ->. injection Hk as -> _. reflexivity.
Defined.

(** C6, as claimed, fails where [ca.key] is not the key of [ca.crt]:
    on the machine whose [ca.key] was replaced, [create_certificate]
    returns normally, and the certificate it wrote does not verify
    against the CA certificate it was issued under: the signature is of
    the key in [ca.key], the certificate in [ca.crt] carries another. *)
Lemma create_certificate_chain_counterexample :
  let issued :=
    @create_certificate (demo_platform (Exited 1)) ["tmp"] world_with_foreign_ca_key in
  issued.1 = inr tt /\
  exists crt ca_crt,
    fs world_with_foreign_ca_key
      !! (@user_data_dir (demo_platform (Exited 1)) // "ca.crt")
      = Some (File (public_bytes ca_crt PEM)) /\
    fs issued.2 !! (["tmp"] // "server.crt") = Some (File (public_bytes crt PEM)) /\
    cert_issuer crt = cert_subject ca_crt /\
    ~ verify_directly_issued_by crt ca_crt.
Proof.
  cbv zeta. split; [vm_compute; reflexivity|].
  exists (@server_certificate (demo_platform (Exited 1)) world_with_foreign_ca_key
            foreign_key (@ca_certificate (demo_platform (Exited 1)) fresh_world)),
    (@ca_certificate (demo_platform (Exited 1)) fresh_world).
  split; [vm_compute; reflexivity|]. split; [vm_compute; reflexivity|].
  split; [reflexivity|].
  intros (_ & Hsig & _). vm_compute in Hsig. discriminate Hsig.
Qed.

(** certutil exits with status 1: the CA is made all the same, and the
    warning and the instructions are printed. *)
Lemma create_ca_install_failure_not_fatal_witness :
  let '(r1, w1) :=
    @create_ca (demo_platform (Exited 1)) {| force := false; auto_install := true |}
      fresh_world in
  r1 = inr tt /\
  is_file (fs w1) (@user_data_dir (demo_platform (Exited 1)) // "ca.crt") = true /\
  exists sha1,
    stdout w1 = [@install_failed_message (demo_platform (Exited 1));
                 @manual_instructions (demo_platform (Exited 1))
                   (@user_data_dir (demo_platform (Exited 1))) sha1].
Proof.
  pose proof (@create_ca_install_failure_not_fatal (demo_platform (Exited 1)) false
                fresh_world) as Hthm.
  assert (@create_ca (demo_platform (Exited 1))
            {| force := false; auto_install := false |} fresh_world
          = (inr tt,
             snd (@create_ca (demo_platform (Exited 1))
                    {| force := false; auto_install := false |} fresh_world))) as Hrun
    by (vm_compute; reflexivity).
  rewrite Hrun in Hthm.
  destruct (@create_ca (demo_platform (Exited 1))
              {| force := false; auto_install := true |} fresh_world) as [r1 w1].
  destruct Hthm as (Hr & Hfs & _ & Hout); [vm_compute; reflexivity|].
  split; [exact Hr|]. split.
  - unfold is_file, stat, joinpath. rewrite Hfs. vm_compute. reflexivity.
  - destruct (Hout eq_refl) as (sha1 & _ & Hout1). exists sha1. exact Hout1.
Defined.

(** The thumbprint in the instructions of the first run. *)
Lemma thumbprint_format_witness :
  exists ca_crt,
    fs world_with_ca !! (@user_data_dir (demo_platform (Exited 1)) // "ca.crt")
      = Some (File (public_bytes ca_crt PEM)) /\
    spec_fingerprint (@fingerprint (demo_platform (Exited 1)) ca_crt SHA1)
    = "92B7DC01-264B7095-BADF0429-4E7398BD-E2072C51" /\
    fingerprint_form (thumbprint (@fingerprint (demo_platform (Exited 1)) ca_crt SHA1))
    = true.
Proof.
  destruct (@thumbprint_format (demo_platform (Exited 1))
              (@ca_certificate (demo_platform (Exited 1)) fresh_world) fresh_world)
    as ((_ & _ & Hform & _) & Hshown).
  destruct (Hshown false
              (snd (@create_ca (demo_platform (Exited 1))
                      {| force := false; auto_install := false |} fresh_world)))
    as (ca_crt & Hfile & _).
  - vm_compute. reflexivity.
  - exists (@ca_certificate (demo_platform (Exited 1)) fresh_world).
    split; [vm_compute; reflexivity|]. split; [vm_compute; reflexivity|].
    exact Hform.
Defined.

(* ===================================================================== *)
(** * Further properties of the module *)
(* ===================================================================== *)

(** ** The file system, continued *)

Lemma stat_insert_ne fs0 (p q : Path) x :
  q <> p -> stat (<[p := x]> fs0) q = stat fs0 q.
Proof. intros Hne. destruct q; [done|]. unfold stat. by apply lookup_insert_ne. Qed.

Lemma writable_parent fs0 (p : Path) : writable fs0 p = true -> is_dir fs0 (tail p) = true.
Proof. destruct p; [done|]. simpl. by intros [? _]%andb_prop. Qed.

Lemma writable_not_directory fs0 (p : Path) : writable fs0 p = true -> is_dir fs0 p = false.
Proof. destruct p; [done|]. simpl. intros [_ ?]%andb_prop. by apply negb_true_iff. Qed.

(** What [mkdir] does to a path: nothing, or it puts a directory where
    nothing was, and then the path is the directory asked for or one
    above it. *)
Lemma mkdir_frame (p : Path) fs0 fs1 (q : Path) :
  mkdir_parents_exist_ok p fs0 = inr fs1 ->
  fs1 !! q = fs0 !! q \/
  (fs0 !! q = None /\ fs1 !! q = Some Directory /\ q `suffix_of` p).
Proof.
  revert fs1. induction p as [|n p IH]; intros fs1; [intros [= <-]; by left|].
  simpl. destruct (fs0 !! (n :: p)) as [[]|] eqn:Hp; [done|intros [= <-]; by left|].
  assert (forall m : FS,
          (m !! q = fs0 !! q \/
           (fs0 !! q = None /\ m !! q = Some Directory /\ q `suffix_of` p)) ->
          <[n :: p := Directory]> m !! q = fs0 !! q \/
          (fs0 !! q = None /\ <[n :: p := Directory]> m !! q = Some Directory /\
           q `suffix_of` n :: p)) as Hins.
  { intros m Hq. destruct (decide (q = n :: p)) as [->|Hne].
    - right. by rewrite lookup_insert_eq.
    - rewrite lookup_insert_ne by done.
      destruct Hq as [?|(? & ? & ?)]; [by left|right].
      split; [done|]. split; [done|]. by apply suffix_cons_r. }
  destruct (stat fs0 p) as [[]|]; [done| |].
  - intros [= <-]. apply Hins; by left.
  - destruct (mkdir_parents_exist_ok p fs0) as [|fs2]; [done|].
    intros [= <-]. by apply Hins, IH.
Qed.

(** A name in a directory is not above the directory. *)
Lemma child_not_suffix (d : Path) n : ~ (d // n) `suffix_of` d.
Proof.
  intros Hs. apply suffix_length in Hs. unfold joinpath in Hs. simpl in Hs. lia.
Qed.

Lemma mkdir_child (p : Path) fs0 fs1 n :
  mkdir_parents_exist_ok p fs0 = inr fs1 -> fs1 !! (p // n) = fs0 !! (p // n).
Proof.
  intros Hmk. destruct (mkdir_frame _ _ _ (p // n) Hmk) as [?|(_ & _ & Hs)]; [done|].
  by apply child_not_suffix in Hs.
Qed.

(** [mkdir] succeeds when no file lies on the way. *)
Lemma mkdir_succeeds (p : Path) fs0 :
  no_file_on_path fs0 p = true -> exists fs1, mkdir_parents_exist_ok p fs0 = inr fs1.
Proof.
  induction p as [|n p IH]; [by eexists|].
  cbn [no_file_on_path mkdir_parents_exist_ok]. intros [Hp Hfree]%andb_prop.
  unfold is_file in Hp. simpl in Hp.
  destruct (fs0 !! (n :: p)) as [[]|]; [done|by eexists|].
  assert (is_file fs0 p = false) as Hpar.
  { destruct p; [done|]. simpl in Hfree. apply andb_prop in Hfree as [Hq _].
    by apply negb_true_iff. }
  unfold is_file in Hpar. destruct (stat fs0 p) as [[]|]; [done|by eexists|].
  destruct (IH Hfree) as [fs2 ->]. by eexists.
Qed.

Lemma mkdir_is_file (p : Path) fs0 fs1 (q : Path) :
  mkdir_parents_exist_ok p fs0 = inr fs1 -> is_file fs1 q = is_file fs0 q.
Proof.
  intros Hmk. unfold is_file. destruct q as [|n q]; [done|]. simpl.
  destruct (mkdir_frame _ _ _ (n :: q) Hmk) as [->|(-> & -> & _)]; done.
Qed.

Lemma mkdir_is_dir (p : Path) fs0 fs1 :
  mkdir_parents_exist_ok p fs0 = inr fs1 -> is_dir fs1 p = true.
Proof.
  destruct p as [|n p]; [done|]. intros Hmk.
  cut (fs1 !! (n :: p) = Some Directory); [unfold is_dir, stat; by intros ->|].
  revert Hmk. simpl.
  destruct (fs0 !! (n :: p)) as [[]|] eqn:Hp; [done|by intros [= <-]|].
  destruct (stat fs0 p) as [[]|]; [done| |].
  - intros [= <-]. by rewrite lookup_insert_eq.
  - destruct (mkdir_parents_exist_ok p fs0); [done|].
    intros [= <-]. by rewrite lookup_insert_eq.
Qed.

Lemma writable_file_in_directory fs0 (d : Path) n data :
  is_dir fs0 d = true -> fs0 !! (d // n) = Some (File data) -> writable fs0 (d // n) = true.
Proof.
  intros Hdir Hfile. unfold writable, joinpath in *. rewrite Hdir. simpl.
  unfold is_dir, stat. by rewrite Hfile.
Qed.

Lemma writable_absent_in_directory fs0 (d : Path) n :
  is_dir fs0 d = true -> fs0 !! (d // n) = None -> writable fs0 (d // n) = true.
Proof.
  intros Hdir Hfile. unfold writable, joinpath in *. rewrite Hdir. simpl.
  unfold is_dir, stat. by rewrite Hfile.
Qed.

(** Writing one file of a directory leaves its other names as writable
    as they were. *)
Lemma writable_insert_sibling fs0 (d : Path) n m data :
  n <> m -> writable (<[d // n := File data]> fs0) (d // m) = writable fs0 (d // m).
Proof.
  intros Hne. unfold writable, joinpath, is_dir.
  rewrite (stat_insert_child fs0 d n). rewrite stat_insert_ne; [done|].
  intros [= ?]. done.
Qed.

Lemma ca_and_server_paths_differ (d d' : Path) :
  d // CA_KEY_FILENAME <> d' // SERVER_KEY_FILENAME /\
  d // CA_KEY_FILENAME <> d' // SERVER_CRT_FILENAME /\
  d // CA_CRT_FILENAME <> d' // SERVER_KEY_FILENAME /\
  d // CA_CRT_FILENAME <> d' // SERVER_CRT_FILENAME.
Proof. repeat split; intros [= ? ?]; done. Qed.

(** ** The functions of the module, continued *)

Section Generator_extras.
Context `{Platform}.

(** [create_certificate], step by step. *)
Lemma create_certificate_unfold directory w :
  create_certificate directory w =
  match fs w !! (user_data_dir // CA_KEY_FILENAME),
        fs w !! (user_data_dir // CA_CRT_FILENAME) with
  | Some (File key_data), Some (File crt_data) =>
      match load_pem_private_key key_data w with
      | (inl e, _) => (inl e, w)
      | (inr ca_key, _) =>
          match load_pem_x509_certificate crt_data w with
          | (inl e, _) => (inl e, w)
          | (inr ca_crt, _) =>
              match open_wb_write (directory // SERVER_KEY_FILENAME)
                      (private_bytes (fresh_key w) PEM TraditionalOpenSSL NoEncryption)
                      (fs w) with
              | inl e => (inl e, bump_rsa w)
              | inr fs1 =>
                  match sign_refusal ca_key with
                  | Some e => (inl e, after_template (bump_rsa (set_fs fs1 w)))
                  | None =>
                      match open_wb_write (directory // SERVER_CRT_FILENAME)
                              (public_bytes (server_certificate w ca_key ca_crt) PEM)
                              fs1 with
                      | inl e => (inl e, after_template (bump_rsa (set_fs fs1 w)))
                      | inr fs2 => (inr tt, after_template (bump_rsa (set_fs fs2 w)))
                      end
                  end
              end
          end
      end
  | _, _ => (inl (RuntimeError ca_not_found_message), w)
  end.
Proof.
  unfold create_certificate.
  unfold mbind at 1, M_bind at 1, bind at 1, Path_is_file at 1, is_file at 1.
  rewrite stat_joinpath.
  destruct (fs w !! (user_data_dir // CA_KEY_FILENAME)) as [[key_data|]|] eqn:Hkey;
    cbv beta iota; try reflexivity.
  unfold mbind at 1, M_bind at 1, bind at 1. cbn [negb].
  unfold mbind at 1, M_bind at 1, bind at 1, Path_is_file at 1, is_file at 1.
  rewrite stat_joinpath.
  destruct (fs w !! (user_data_dir // CA_CRT_FILENAME)) as [[crt_data|]|] eqn:Hcrt;
    cbv beta iota; try reflexivity.
  unfold ret at 1. cbn [negb].
  unfold mbind at 1, M_bind at 1, bind at 1. unfold ret at 1. cbv beta iota.
  unfold mbind at 1, M_bind at 1, bind at 1, read_file at 1, open_rb_read at 1.
  rewrite stat_joinpath, Hkey. cbv beta iota.
  unfold mbind at 1, M_bind at 1, bind at 1.
  destruct (load_pem_private_key key_data w) as [r w1] eqn:Hload.
  assert (w1 = w) as ->.
  { destruct key_data as [k [] f []| |]; by injection Hload. }
  destruct r as [e|ca_key]; [reflexivity|].
  unfold mbind at 1, M_bind at 1, bind at 1, read_file at 1, open_rb_read at 1.
  rewrite stat_joinpath, Hcrt. cbv beta iota.
  unfold mbind at 1, M_bind at 1, bind at 1.
  destruct (load_pem_x509_certificate crt_data w) as [r w1] eqn:Hload2.
  assert (w1 = w) as ->.
  { destruct crt_data as [|c []|]; by injection Hload2. }
  destruct r as [e|ca_crt]; [reflexivity|].
  unfold mbind at 1, M_bind at 1, bind at 1. rewrite create_key_run.
  destruct (open_wb_write (directory // SERVER_KEY_FILENAME) _ (fs w)) as [e|fs1];
    [reflexivity|].
  cbv beta iota.
  unfold mbind at 1, M_bind at 1, bind at 1. rewrite certificate_template_run.
  cbv beta iota.
  unfold mbind at 1, M_bind at 1, bind at 1. unfold sign at 1, add_extension.
  cbn [b_subject_name b_issuer_name b_public_key b_serial_number
       b_not_valid_before b_not_valid_after b_extensions app].
  destruct (sign_refusal ca_key) as [e|]; [reflexivity|].
  unfold ret at 1. cbv beta iota.
  unfold write_file at 1, lift_fs at 1.
  match goal with
  | |- context [open_wb_write ?p ?d (fs (after_template ?x))] =>
      change (open_wb_write p d (fs (after_template x)))
        with (open_wb_write p (public_bytes (server_certificate w ca_key ca_crt) PEM) fs1)
  end.
  destruct (open_wb_write (directory // SERVER_CRT_FILENAME) _ fs1) as [e|fs2];
    reflexivity.
Qed.


(** [create_certificate] returns normally where the CA files load, the
    CA key signs and both output files can be written. *)
Lemma create_certificate_run directory w ca_key format ca_crt :
  fs w !! (user_data_dir // CA_KEY_FILENAME)
    = Some (File (private_bytes ca_key PEM format NoEncryption)) ->
  fs w !! (user_data_dir // CA_CRT_FILENAME) = Some (File (public_bytes ca_crt PEM)) ->
  signs_with_hash ca_key = true ->
  writable (fs w) (directory // SERVER_KEY_FILENAME) = true ->
  writable (fs w) (directory // SERVER_CRT_FILENAME) = true ->
  create_certificate directory w
  = (inr tt,
     after_template (bump_rsa (set_fs
       (<[directory // SERVER_CRT_FILENAME :=
            File (public_bytes (server_certificate w ca_key ca_crt) PEM)]>
          (<[directory // SERVER_KEY_FILENAME :=
               File (private_bytes (fresh_key w) PEM TraditionalOpenSSL NoEncryption)]>
             (fs w))) w))).
Proof.
  intros Hkey Hcrt Hsign Hwk Hwc. rewrite create_certificate_unfold, Hkey, Hcrt.
  cbn [load_pem_private_key load_pem_x509_certificate ret].
  rewrite (open_wb_write_writable _ _ _ Hwk).
  unfold signs_with_hash in Hsign. destruct (sign_refusal ca_key); [done|].
  rewrite open_wb_write_writable; [done|].
  by rewrite writable_insert_sibling.
Qed.

(** What the installation leaves and prints when certutil exits with
    status 0. *)
Lemma install_or_instruct_installed directory sha1 w :
  spawn (certutil_command (directory // CA_CRT_FILENAME)) = Exited 0 ->
  install_or_instruct true directory sha1 w
  = (inr tt,
     add_stdout [installed_message]
       (set_fs (spawn_writes (certutil_command (directory // CA_CRT_FILENAME)) (fs w)) w)).
Proof.
  intros Hspawn.
  unfold install_or_instruct, mbind, M_bind, bind, try_except, subprocess_run_check.
  by rewrite Hspawn.
Qed.

(** The directory and the two files after a successful [create_ca]. *)
Lemma create_ca_leaves_directory args w w' :
  create_ca args w = (inr tt, w') ->
  is_dir (fs w') user_data_dir = true /\
  fs w' !! (user_data_dir // CA_KEY_FILENAME)
    = Some (File (private_bytes (fresh_key w) PEM TraditionalOpenSSL NoEncryption)) /\
  fs w' !! (user_data_dir // CA_CRT_FILENAME)
    = Some (File (public_bytes (ca_certificate w) PEM)).
Proof.
  intros Hrun. split; [|exact (create_ca_inv _ _ _ Hrun)].
  revert Hrun. rewrite create_ca_unfold.
  destruct (mkdir_parents_exist_ok _ _) as [e|fs1] eqn:Hmk; [done|].
  destruct (negb (force args) && _); [done|].
  destruct (open_wb_write _ _ fs1) as [e|fs2] eqn:Hkey; [done|].
  destruct (open_wb_write _ _ fs2) as [e|fs3] eqn:Hcrt; [done|].
  intros Hrun. unfold is_dir, stat.
  rewrite (install_or_instruct_keeps_user_data _ _ _ _ _ _ _ Hrun) by done.
  simpl.
  apply open_wb_write_inr in Hkey as [_ ->]. apply open_wb_write_inr in Hcrt as [_ ->].
  change (is_dir (<[user_data_dir // CA_CRT_FILENAME := File (public_bytes (ca_certificate w) PEM)]>
                    (<[user_data_dir // CA_KEY_FILENAME :=
                         File (private_bytes (fresh_key w) PEM TraditionalOpenSSL NoEncryption)]>
                       fs1)) user_data_dir = true).
  unfold is_dir. rewrite !stat_insert_child.
  by apply mkdir_is_dir in Hmk.
Qed.

(* --------------------------------------------------------------------- *)
(** ** What [create_ca] leaves behind *)
(* --------------------------------------------------------------------- *)

(** X1.  After a successful [create_ca] the user data directory holds a
    key and a certificate that belong together: the key has exponent
    65537 and 2048 bits; the certificate carries its public key, names
    the static identity as subject and as issuer, is marked as a CA, and
    is signed with that key under SHA-256, so that it verifies against
    itself. *)
Theorem create_ca_writes_matching_pair args w w' :
  create_ca args w = (inr tt, w') ->
  exists (key : RSAPrivateKey) cert,
    is_dir (fs w') user_data_dir = true /\
    fs w' !! (user_data_dir // CA_KEY_FILENAME)
      = Some (File (private_bytes key PEM TraditionalOpenSSL NoEncryption)) /\
    fs w' !! (user_data_dir // CA_CRT_FILENAME) = Some (File (public_bytes cert PEM)) /\
    public_exponent key = 65537 /\ key_size key = 2048 /\
    cert_public_key cert = public_key key /\
    cert_subject cert = NAME /\ cert_issuer cert = NAME /\
    In {| critical := true; extension := BasicConstraints true None |}
       (cert_extensions cert) /\
    cert_signature cert = {| signer := key; signature_hash := SHA256 |} /\
    verify_directly_issued_by cert cert.
Proof.
  intros Hrun. destruct (create_ca_leaves_directory _ _ _ Hrun) as (Hdir & Hkey & Hcrt).
  exists (fresh_key w), (ca_certificate w).
  repeat split; try done. simpl. tauto.
Qed.


(** X3.  [create_ca] is not repeated by accident: after a successful
    run, a second run without [--force] raises the error that names
    [ca.crt] and changes nothing. *)
Theorem create_ca_twice_refused args auto w w1 :
  create_ca args w = (inr tt, w1) ->
  create_ca {| force := false; auto_install := auto |} w1
  = (inl (OSError (already_exists_message (user_data_dir // CA_CRT_FILENAME))), w1).
Proof.
  intros Hrun. destruct (create_ca_leaves_directory _ _ _ Hrun) as (Hdir & _ & Hcrt).
  rewrite create_ca_unfold, (mkdir_existing _ _ Hdir). cbn [force negb andb].
  by rewrite (lookup_is_file _ _ _ _ Hcrt), set_fs_same.
Qed.

(** X4.  [--force] makes a difference only where [ca.crt] is a file:
    where it is not, [create_ca] does the same with and without it. *)
Theorem create_ca_force_irrelevant_without_certificate auto w :
  is_file (fs w) (user_data_dir // CA_CRT_FILENAME) = false ->
  create_ca {| force := false; auto_install := auto |} w
  = create_ca {| force := true; auto_install := auto |} w.
Proof.
  intros Hcrt. rewrite !create_ca_unfold. cbn [force auto_install negb andb].
  destruct (mkdir_parents_exist_ok _ _) as [e|fs1] eqn:Hmk; [done|].
  by rewrite (mkdir_is_file _ _ _ _ Hmk), Hcrt.
Qed.

(** X5.  [--force] always works on a CA that [create_ca] made: run
    again with [--force] (the installation not raising), [create_ca]
    returns normally, and both files then hold the key and the
    certificate of the second run. *)
Theorem create_ca_force_replaces args auto w w1 :
  create_ca args w = (inr tt, w1) ->
  auto = false \/
  install_raises (spawn (certutil_command (user_data_dir // CA_CRT_FILENAME))) = false ->
  exists w2,
    create_ca {| force := true; auto_install := auto |} w1 = (inr tt, w2) /\
    fs w2 !! (user_data_dir // CA_KEY_FILENAME)
      = Some (File (private_bytes (fresh_key w1) PEM TraditionalOpenSSL NoEncryption)) /\
    fs w2 !! (user_data_dir // CA_CRT_FILENAME)
      = Some (File (public_bytes (ca_certificate w1) PEM)) /\
    cert_public_key (ca_certificate w1) = public_key (fresh_key w1).
Proof.
  intros Hrun Hinst.
  destruct (create_ca_leaves_directory _ _ _ Hrun) as (Hdir & Hkey & Hcrt).
  assert (exists w2, create_ca {| force := true; auto_install := auto |} w1 = (inr tt, w2))
    as [w2 Hrun2].
  { rewrite create_ca_unfold, (mkdir_existing _ _ Hdir). cbn [force auto_install negb andb].
    rewrite (open_wb_write_writable _ _ _ (writable_file_in_directory _ _ _ _ Hdir Hkey)).
    rewrite open_wb_write_writable.
    - destruct (install_or_instruct _ _ _ _) as [r w2] eqn:Hrun2.
      exists w2. f_equal.
      eapply install_or_instruct_returns in Hinst. erewrite Hrun2 in Hinst. exact Hinst.
    - unfold CA_KEY_FILENAME, CA_CRT_FILENAME.
      rewrite writable_insert_sibling by done.
      by eapply writable_file_in_directory. }
  exists w2. split; [done|]. destruct (create_ca_inv _ _ _ Hrun2) as [? ?]. done.
Qed.

(** X6.  Where nothing is in the way, [create_ca] works: no file lies
    on the path of the user data directory, [ca.crt] is no file or
    [--force] is given, neither [ca.key] nor [ca.crt] is a directory,
    and the installation does not raise.  Then [create_ca] returns
    normally, the user data directory exists and holds both files. *)
Theorem create_ca_succeeds args w :
  no_file_on_path (fs w) user_data_dir = true ->
  force args = true \/ is_file (fs w) (user_data_dir // CA_CRT_FILENAME) = false ->
  fs w !! (user_data_dir // CA_KEY_FILENAME) <> Some Directory ->
  fs w !! (user_data_dir // CA_CRT_FILENAME) <> Some Directory ->
  auto_install args = false \/
  install_raises (spawn (certutil_command (user_data_dir // CA_CRT_FILENAME))) = false ->
  exists w',
    create_ca args w = (inr tt, w') /\
    is_dir (fs w') user_data_dir = true /\
    is_file (fs w') (user_data_dir // CA_KEY_FILENAME) = true /\
    is_file (fs w') (user_data_dir // CA_CRT_FILENAME) = true.
Proof.
  intros Hfree Hguard Hkey Hcrt Hinst.
  assert (exists w', create_ca args w = (inr tt, w')) as [w' Hrun].
  { rewrite create_ca_unfold. destruct (mkdir_succeeds _ _ Hfree) as [fs1 Hmk].
    rewrite Hmk, (mkdir_is_file _ _ _ _ Hmk).
    assert (negb (force args) && is_file (fs w) (user_data_dir // CA_CRT_FILENAME) = false)
      as -> by (destruct Hguard as [->| ->]; [done|by rewrite andb_false_r]).
    pose proof (mkdir_is_dir _ _ _ Hmk) as Hdir.
    assert (forall n, fs w !! (user_data_dir // n) <> Some Directory ->
                      writable fs1 (user_data_dir // n) = true) as Hwr.
    { intros n Hn. unfold writable, joinpath. rewrite Hdir. simpl.
      unfold is_dir, stat. change (n :: user_data_dir) with (user_data_dir // n).
      rewrite (mkdir_child _ _ _ n Hmk).
      by destruct (fs w !! (user_data_dir // n)) as [[]|]. }
    rewrite (open_wb_write_writable _ _ _ (Hwr _ Hkey)).
    rewrite open_wb_write_writable.
    - destruct (install_or_instruct _ _ _ _) as [r w'] eqn:Hrun.
      exists w'. f_equal.
      eapply install_or_instruct_returns in Hinst. erewrite Hrun in Hinst. exact Hinst.
    - unfold CA_KEY_FILENAME, CA_CRT_FILENAME.
      rewrite writable_insert_sibling by done. by apply Hwr. }
  exists w'. split; [done|].
  destruct (create_ca_leaves_directory _ _ _ Hrun) as (? & ? & ?).
  split; [done|]. split; by eapply lookup_is_file.
Qed.

(** X7.  [create_ca] writes the key before the certificate and takes
    nothing back: with a directory in the place of [ca.crt], it raises
    when it comes to write the certificate, and by then [ca.key] holds
    the new key, whatever it held before, with or without [--force]. *)
Theorem create_ca_key_written_before_certificate args w old :
  is_dir (fs w) user_data_dir = true ->
  fs w !! (user_data_dir // CA_KEY_FILENAME) = Some (File old) ->
  fs w !! (user_data_dir // CA_CRT_FILENAME) = Some Directory ->
  exists w',
    create_ca args w = (inl IsADirectoryError, w') /\
    fs w' !! (user_data_dir // CA_KEY_FILENAME)
      = Some (File (private_bytes (fresh_key w) PEM TraditionalOpenSSL NoEncryption)) /\
    fs w' !! (user_data_dir // CA_CRT_FILENAME) = Some Directory.
Proof.
  intros Hdir Hkey Hcrt. eexists.
  rewrite create_ca_unfold, (mkdir_existing _ _ Hdir).
  assert (is_file (fs w) (user_data_dir // CA_CRT_FILENAME) = false) as ->
    by (unfold is_file; by rewrite stat_joinpath, Hcrt).
  rewrite andb_false_r.
  rewrite (open_wb_write_writable _ _ _ (writable_file_in_directory _ _ _ _ Hdir Hkey)).
  unfold open_wb_write at 1, joinpath at 1. rewrite stat_insert_child.
  unfold is_dir in Hdir. destruct (stat (fs w) user_data_dir) as [[]|]; try done.
  change (CA_CRT_FILENAME :: user_data_dir) with (user_data_dir // CA_CRT_FILENAME).
  rewrite lookup_insert_ne by apply ca_paths_differ. rewrite Hcrt.
  split; [reflexivity|]. simpl. split.
  - apply lookup_insert_eq.
  - by rewrite lookup_insert_ne by apply ca_paths_differ.
Qed.

(** X8.  When certutil exits with status 0, [create_ca --auto-install]
    ends with the result of [create_ca] without the flag.  Where that is
    a normal return, the files are those of the run without the flag
    after certutil has worked on them, and the run has printed the
    message of success and nothing else: no instructions and no
    thumbprint.  Where it is an error, certutil was never started and
    the files are the same. *)
Theorem create_ca_installed_prints_no_instructions frc w :
  spawn (certutil_command (user_data_dir // CA_CRT_FILENAME)) = Exited 0 ->
  let '(r0, w0) := create_ca {| force := frc; auto_install := false |} w in
  let '(r1, w1) := create_ca {| force := frc; auto_install := true |} w in
  r1 = r0 /\
  (r0 = inr tt ->
   fs w1 = spawn_writes (certutil_command (user_data_dir // CA_CRT_FILENAME)) (fs w0) /\
   stdout w1 = (stdout w ++ [installed_message])%list) /\
  (r0 <> inr tt -> fs w1 = fs w0 /\ stdout w1 = stdout w).
Proof.
  intros Hspawn. rewrite !create_ca_unfold. cbn [force auto_install].
  destruct (mkdir_parents_exist_ok _ _) as [e|fs1]; [done|].
  destruct (negb frc && _); [done|].
  destruct (open_wb_write _ _ fs1) as [e|fs2]; [done|].
  destruct (open_wb_write _ _ fs2) as [e|fs3]; [done|].
  rewrite install_or_instruct_installed by done.
  rewrite install_or_instruct_not_requested. done.
Qed.


(* --------------------------------------------------------------------- *)
(** ** What [create_certificate] needs and leaves behind *)
(* --------------------------------------------------------------------- *)

(** X9.  However [create_certificate] ends, it has printed nothing and
    has changed no node of the file system but [server.key] and
    [server.crt] in the output directory; in particular the two CA files
    are as they were, also where the output directory is the user data
    directory. *)
Theorem create_certificate_touches_only_server_files directory w :
  let '(r, w') := create_certificate directory w in
  stdout w' = stdout w /\
  fs w' !! (user_data_dir // CA_KEY_FILENAME) = fs w !! (user_data_dir // CA_KEY_FILENAME) /\
  fs w' !! (user_data_dir // CA_CRT_FILENAME) = fs w !! (user_data_dir // CA_CRT_FILENAME) /\
  forall q : Path,
    q <> directory // SERVER_KEY_FILENAME ->
    q <> directory // SERVER_CRT_FILENAME ->
    fs w' !! q = fs w !! q.
Proof.
  destruct (ca_and_server_paths_differ user_data_dir directory) as (Hkk & Hkc & Hck & Hcc).
  rewrite create_certificate_unfold.
  destruct (fs w !! (user_data_dir // CA_KEY_FILENAME)) as [[key_data|]|] eqn:Hkey;
    try (by simpl).
  destruct (fs w !! (user_data_dir // CA_CRT_FILENAME)) as [[crt_data|]|] eqn:Hcrt;
    try (by simpl).
  destruct (load_pem_private_key key_data w) as [[e|ca_key] ?]; [by simpl|].
  destruct (load_pem_x509_certificate crt_data w) as [[e|ca_crt] ?]; [by simpl|].
  destruct (open_wb_write _ _ (fs w)) as [e|fs1] eqn:Hw1; [by simpl|].
  apply open_wb_write_inr in Hw1 as [_ ->].
  destruct (sign_refusal ca_key) as [e|].
  { simpl. rewrite !lookup_insert_ne by done.
    split; [done|]. split; [done|]. split; [done|].
    intros q Hk _. by rewrite lookup_insert_ne. }
  destruct (open_wb_write _ _ _) as [e|fs2] eqn:Hw2.
  - simpl. rewrite !lookup_insert_ne by done.
    split; [done|]. split; [done|]. split; [done|].
    intros q Hk _. by rewrite lookup_insert_ne.
  - apply open_wb_write_inr in Hw2 as [_ ->]. simpl.
    rewrite !lookup_insert_ne by done.
    split; [done|]. split; [done|]. split; [done|].
    intros q Hk Hc. by rewrite !lookup_insert_ne.
Qed.



(** X12.  Where [server.key] cannot be opened for writing (the output
    directory is missing, say), [create_certificate] raises and no file
    is written. *)
Theorem create_certificate_unwritable_output directory w :
  writable (fs w) (directory // SERVER_KEY_FILENAME) = false ->
  exists e w',
    create_certificate directory w = (inl e, w') /\ fs w' = fs w /\ stdout w' = stdout w.
Proof.
  intros Hwr. rewrite create_certificate_unfold.
  destruct (fs w !! (user_data_dir // CA_KEY_FILENAME)) as [[key_data|]|];
    try by eexists _, _.
  destruct (fs w !! (user_data_dir // CA_CRT_FILENAME)) as [[crt_data|]|];
    try by eexists _, _.
  destruct (load_pem_private_key key_data w) as [[e|ca_key] ?]; [by eexists _, _|].
  destruct (load_pem_x509_certificate crt_data w) as [[e|ca_crt] ?]; [by eexists _, _|].
  destruct (open_wb_write _ _ (fs w)) as [e|fs1] eqn:Hw1; [by eexists _, _|].
  apply open_wb_write_inr in Hw1 as [Hwk _]. congruence.
Qed.

(** X13.  [create_certificate] can be run again and again: after a
    successful run, a second run into the same directory returns
    normally as well, and [server.key] and [server.crt] then hold a new
    key and a certificate for that key, issued under the same CA
    files. *)
Theorem create_certificate_rerun directory w w1 :
  create_certificate directory w = (inr tt, w1) ->
  exists w2 ca_key format ca_crt crt,
    create_certificate directory w1 = (inr tt, w2) /\
    fs w !! (user_data_dir // CA_KEY_FILENAME)
      = Some (File (private_bytes ca_key PEM format NoEncryption)) /\
    fs w !! (user_data_dir // CA_CRT_FILENAME) = Some (File (public_bytes ca_crt PEM)) /\
    fs w2 !! (directory // SERVER_KEY_FILENAME)
      = Some (File (private_bytes (fresh_key w1) PEM TraditionalOpenSSL NoEncryption)) /\
    fs w2 !! (directory // SERVER_CRT_FILENAME) = Some (File (public_bytes crt PEM)) /\
    cert_public_key crt = public_key (fresh_key w1) /\
    cert_issuer crt = cert_subject ca_crt /\
    signer (cert_signature crt) = ca_key.
Proof.
  intros Hrun.
  destruct (ca_and_server_paths_differ user_data_dir directory) as (Hkk & Hkc & Hck & Hcc).
  destruct (create_certificate_inv _ _ _ Hrun)
    as (ca_key & format & ca_crt & Hkey & Hcrt & Hwk & Hfs & _ & Hsign).
  pose proof (writable_parent _ _ Hwk) as Hdir. simpl in Hdir.
  assert (is_dir (fs w1) directory = true) as Hdir1.
  { rewrite Hfs. unfold is_dir. by rewrite !stat_insert_child. }
  assert (fs w1 !! (user_data_dir // CA_KEY_FILENAME)
          = Some (File (private_bytes ca_key PEM format NoEncryption))) as Hkey1
    by (by rewrite Hfs, !lookup_insert_ne).
  assert (fs w1 !! (user_data_dir // CA_CRT_FILENAME)
          = Some (File (public_bytes ca_crt PEM))) as Hcrt1
    by (by rewrite Hfs, !lookup_insert_ne).
  assert (writable (fs w1) (directory // SERVER_KEY_FILENAME) = true) as Hwk1.
  { eapply writable_file_in_directory; [done|].
    rewrite Hfs, lookup_insert_ne by apply server_paths_differ. apply lookup_insert_eq. }
  assert (writable (fs w1) (directory // SERVER_CRT_FILENAME) = true) as Hwc1.
  { eapply writable_file_in_directory; [done|]. rewrite Hfs. apply lookup_insert_eq. }
  eexists _, ca_key, format, ca_crt, (server_certificate w1 ca_key ca_crt).
  split; [by eapply create_certificate_run|]. simpl.
  split; [done|]. split; [done|].
  split; [rewrite lookup_insert_ne by apply server_paths_differ; apply lookup_insert_eq|].
  split; [apply lookup_insert_eq|]. done.
Qed.

(** X14.  A CA made by [create_ca] is one that [create_certificate]
    can use: after a successful [create_ca], [create_certificate]
    returns normally for every output directory in which [server.key]
    and [server.crt] can be written; the certificate it writes verifies
    against the certificate in [ca.crt]; and it bears the same
    distinguished name as subject and as issuer, the static identity,
    though it is not self-signed. *)
Theorem create_ca_then_issue args directory w w1 :
  create_ca args w = (inr tt, w1) ->
  writable (fs w1) (directory // SERVER_KEY_FILENAME) = true ->
  writable (fs w1) (directory // SERVER_CRT_FILENAME) = true ->
  exists w2 ca_crt crt,
    create_certificate directory w1 = (inr tt, w2) /\
    fs w2 !! (user_data_dir // CA_CRT_FILENAME) = Some (File (public_bytes ca_crt PEM)) /\
    fs w2 !! (directory // SERVER_CRT_FILENAME) = Some (File (public_bytes crt PEM)) /\
    verify_directly_issued_by crt ca_crt /\
    cert_subject crt = NAME /\ cert_issuer crt = NAME /\
    cert_public_key crt = public_key (fresh_key w1) /\
    signer (cert_signature crt) = fresh_key w.
Proof.
  intros Hrun Hwk Hwc.
  destruct (ca_and_server_paths_differ user_data_dir directory) as (Hkk & Hkc & Hck & Hcc).
  destruct (create_ca_inv _ _ _ Hrun) as [Hkey Hcrt].
  eexists _, (ca_certificate w), (server_certificate w1 (fresh_key w) (ca_certificate w)).
  split; [by eapply create_certificate_run|]. simpl.
  split; [by rewrite !lookup_insert_ne|].
  split; [apply lookup_insert_eq|]. by repeat split.
Qed.

End Generator_extras.

(* --------------------------------------------------------------------- *)
(** ** The thumbprint, read backwards *)
(* --------------------------------------------------------------------- *)

Lemma append_inj_length s1 s2 r1 r2 :
  String.length s1 = String.length s2 ->
  s1 +:+ r1 = s2 +:+ r2 -> s1 = s2 /\ r1 = r2.
Proof.
  revert s2. induction s1 as [|c s1 IH]; intros [|c' s2]; try done.
  rewrite !append_cons. intros [= Hlen] [= -> Heq].
  destruct (IH _ Hlen Heq) as [-> ->]. done.
Qed.

(** The upper-case digit tells the nibble. *)
Lemma upper_hex_digit_inj (a b : N) :
  (a < 16)%N -> (b < 16)%N ->
  ascii_upper (hex_digit a) = ascii_upper (hex_digit b) -> a = b.
Proof.
  intros Ha Hb.
  assert (forall n, (n < 16)%N -> exists k, (k < 16)%nat /\ n = N.of_nat k) as Hnat.
  { intros n Hn. exists (N.to_nat n). split; lia. }
  destruct (Hnat a Ha) as (i & Hi & ->). destruct (Hnat b Hb) as (j & Hj & ->).
  do 16 (destruct i as [|i]; [do 16 (destruct j as [|j]; [by vm_compute|]); lia|]).
  lia.
Qed.

Lemma upper_byte_hex_inj (b b' : byte) :
  str_upper (byte_hex b) = str_upper (byte_hex b') -> b = b'.
Proof.
  unfold byte_hex. cbv zeta. simpl. intros [= Hhi Hlo].
  pose proof (Byte.to_N_bounded b) as Hb. pose proof (Byte.to_N_bounded b') as Hb'.
  apply upper_hex_digit_inj in Hhi;
    [|apply N.Div0.div_lt_upper_bound; lia|apply N.Div0.div_lt_upper_bound; lia].
  apply upper_hex_digit_inj in Hlo; [|apply N.mod_lt; lia|apply N.mod_lt; lia].
  assert (Byte.to_N b = Byte.to_N b') as Heq.
  { rewrite (N.div_mod' (Byte.to_N b) 16), (N.div_mod' (Byte.to_N b') 16). lia. }
  pose proof (Byte.of_to_N b) as Hof. rewrite Heq, Byte.of_to_N in Hof. by injection Hof.
Qed.

Lemma upper_bytes_hex_inj (d d' : list byte) :
  length d = length d' ->
  str_upper (bytes_hex d) = str_upper (bytes_hex d') -> d = d'.
Proof.
  revert d'. induction d as [|b d IH]; intros [|b' d']; try done.
  cbn [bytes_hex length]. rewrite !str_upper_app. intros [= Hlen] Heq.
  apply append_inj_length in Heq as [Hb Hd]; [|by rewrite !str_upper_length].
  apply upper_byte_hex_inj in Hb as ->. by rewrite (IH _ Hlen Hd).
Qed.

(** The thumbprint of five groups of four bytes. *)
Lemma thumbprint_groups (d0 d1 d2 d3 d4 : list byte) :
  length d0 = 4%nat -> length d1 = 4%nat -> length d2 = 4%nat ->
  length d3 = 4%nat -> length d4 = 4%nat ->
  thumbprint (d0 ++ d1 ++ d2 ++ d3 ++ d4)%list
  = str_upper (bytes_hex d0) +:+ "-" +:+ str_upper (bytes_hex d1) +:+ "-"
    +:+ str_upper (bytes_hex d2) +:+ "-" +:+ str_upper (bytes_hex d3) +:+ "-"
    +:+ str_upper (bytes_hex d4).
Proof.
  intros H0 H1 H2 H3 H4.
  assert (forall d : list byte, length d = 4%nat -> String.length (bytes_hex d) = 8%nat)
    as Hg by (intros d Hd; rewrite bytes_hex_length; lia).
  unfold thumbprint, re_findall_dot_8_8. rewrite !bytes_hex_app.
  rewrite <- (append_nil_r (bytes_hex d4)) at 1.
  rewrite !findall_from_group by auto using bytes_hex_not_newline.
  cbv [String.concat findall_from]. by rewrite !str_upper_app.
Qed.

(** X16.  The thumbprint loses nothing of the digest: two SHA-1 digests
    with the same thumbprint are the same digest.  So comparing the
    thumbprint shown by [create_ca] with the one shown by the browser
    compares the fingerprints. *)
Theorem thumbprint_injective (digest digest' : list byte) :
  length digest = 20%nat -> length digest' = 20%nat ->
  thumbprint digest = thumbprint digest' -> digest = digest'.
Proof.
  intros Hlen Hlen'.
  destruct (digest_groups digest Hlen)
    as (d0 & d1 & d2 & d3 & d4 & -> & H0 & H1 & H2 & H3 & H4).
  destruct (digest_groups digest' Hlen')
    as (e0 & e1 & e2 & e3 & e4 & -> & G0 & G1 & G2 & G3 & G4).
  rewrite !thumbprint_groups by done.
  assert (forall d e : list byte, length d = 4%nat -> length e = 4%nat ->
            String.length (str_upper (bytes_hex d)) = String.length (str_upper (bytes_hex e)))
    as Hsame by (intros d e Hd He; by rewrite !str_upper_length, !bytes_hex_length, Hd, He).
  intros Heq.
  apply append_inj_length in Heq as [E0 Heq]; [|by apply Hsame].
  apply (append_inj_length "-" "-") in Heq as [_ Heq]; [|done].
  apply append_inj_length in Heq as [E1 Heq]; [|by apply Hsame].
  apply (append_inj_length "-" "-") in Heq as [_ Heq]; [|done].
  apply append_inj_length in Heq as [E2 Heq]; [|by apply Hsame].
  apply (append_inj_length "-" "-") in Heq as [_ Heq]; [|done].
  apply append_inj_length in Heq as [E3 Heq]; [|by apply Hsame].
  apply (append_inj_length "-" "-") in Heq as [_ E4]; [|done].
  apply upper_bytes_hex_inj in E0, E1, E2, E3, E4; try congruence.
Qed.

(* ===================================================================== *)
(** * The further properties on a concrete machine *)
(* ===================================================================== *)

(** The first run on the fresh machine leaves a CA that verifies
    against itself. *)
Lemma create_ca_writes_matching_pair_witness :
  exists key cert,
    fs world_with_ca !! (@user_data_dir (demo_platform (Exited 1)) // "ca.key")
      = Some (File (private_bytes key PEM TraditionalOpenSSL NoEncryption)) /\
    fs world_with_ca !! (@user_data_dir (demo_platform (Exited 1)) // "ca.crt")
      = Some (File (public_bytes cert PEM)) /\
    cert_public_key cert = public_key key /\
    verify_directly_issued_by cert cert.
Proof.
  destruct (@create_ca_writes_matching_pair (demo_platform (Exited 1))
              {| force := false; auto_install := true |} fresh_world world_with_ca)
    as (key & cert & _ & Hkey & Hcrt & _ & _ & Hpub & _ & _ & _ & _ & Hself).
  - vm_compute. reflexivity.
  - exists key, cert. split; [exact Hkey|]. split; [exact Hcrt|].
    split; [exact Hpub|exact Hself].
Defined.


(** The second run on the machine that has a CA is refused. *)
Lemma create_ca_twice_refused_witness :
  @create_ca (demo_platform (Exited 1)) {| force := false; auto_install := false |}
    world_with_ca
  = (inl (OSError
            (already_exists_message
               (@user_data_dir (demo_platform (Exited 1)) // "ca.crt"))),
     world_with_ca).
Proof.
  apply (@create_ca_twice_refused (demo_platform (Exited 1))
           {| force := false; auto_install := true |} false fresh_world world_with_ca).
  vm_compute. reflexivity.
Defined.

(** On the fresh machine [--force] changes nothing. *)
Lemma create_ca_force_irrelevant_without_certificate_witness :
  @create_ca (demo_platform (Exited 1)) {| force := false; auto_install := true |}
    fresh_world
  = @create_ca (demo_platform (Exited 1)) {| force := true; auto_install := true |}
      fresh_world.
Proof.
  apply (@create_ca_force_irrelevant_without_certificate (demo_platform (Exited 1))).
  vm_compute. reflexivity.
Defined.

(** With [--force] the machine that has a CA gets a new one. *)
Lemma create_ca_force_replaces_witness :
  exists w2,
    @create_ca (demo_platform (Exited 1)) {| force := true; auto_install := true |}
      world_with_ca = (inr tt, w2) /\
    fs w2 !! (@user_data_dir (demo_platform (Exited 1)) // "ca.key")
    = Some (File (private_bytes
                    {| public_exponent := 65537; key_size := 2048; key_material := 1 |}
                    PEM TraditionalOpenSSL NoEncryption)).
Proof.
  destruct (@create_ca_force_replaces (demo_platform (Exited 1))
              {| force := false; auto_install := true |} true fresh_world world_with_ca)
    as (w2 & Hrun & Hkey & _).
  - vm_compute. reflexivity.
  - right. vm_compute. reflexivity.
  - exists w2. split; [exact Hrun|]. refine (eq_trans Hkey _). vm_compute. reflexivity.
Defined.

(** The fresh machine is one where nothing is in the way. *)
Lemma create_ca_succeeds_witness :
  exists w',
    @create_ca (demo_platform (Exited 1)) {| force := false; auto_install := true |}
      fresh_world = (inr tt, w') /\
    is_dir (fs w') (@user_data_dir (demo_platform (Exited 1))) = true.
Proof.
  destruct (@create_ca_succeeds (demo_platform (Exited 1))
              {| force := false; auto_install := true |} fresh_world)
    as (w' & Hrun & Hdir & _).
  - vm_compute. reflexivity.
  - right. vm_compute. reflexivity.
  - vm_compute. discriminate.
  - vm_compute. discriminate.
  - right. vm_compute. reflexivity.
  - exists w'. split; [exact Hrun|exact Hdir].
Defined.

(** With a directory named [ca.crt], the key of the first run is lost
    to a run that fails. *)
Lemma create_ca_key_written_before_certificate_witness :
  exists w',
    @create_ca (demo_platform (Exited 1)) {| force := true; auto_install := false |}
      world_with_ca_crt_directory = (inl IsADirectoryError, w') /\
    fs w' !! (@user_data_dir (demo_platform (Exited 1)) // "ca.key")
    = Some (File (private_bytes
                    {| public_exponent := 65537; key_size := 2048; key_material := 1 |}
                    PEM TraditionalOpenSSL NoEncryption)).
Proof.
  destruct (@create_ca_key_written_before_certificate (demo_platform (Exited 1))
              {| force := true; auto_install := false |} world_with_ca_crt_directory
              (private_bytes
                 {| public_exponent := 65537; key_size := 2048; key_material := 0 |}
                 PEM TraditionalOpenSSL NoEncryption))
    as (w' & Hrun & Hkey & _).
  - vm_compute. reflexivity.
  - vm_compute. reflexivity.
  - vm_compute. reflexivity.
  - exists w'. split; [exact Hrun|]. refine (eq_trans Hkey _). vm_compute. reflexivity.
Defined.

(** certutil exits with status 0: its database is there and one line is
    printed. *)
Lemma create_ca_installed_prints_no_instructions_witness :
  let '(r1, w1) :=
    @create_ca (demo_platform (Exited 0)) {| force := false; auto_install := true |}
      fresh_world in
  r1 = inr tt /\
  is_file (fs w1) (["alice"; "home"] // ".pki" // "nssdb" // "cert9.db") = true /\
  stdout w1 = [@installed_message (demo_platform (Exited 0))].
Proof.
  pose proof (@create_ca_installed_prints_no_instructions (demo_platform (Exited 0))
                false fresh_world) as Hthm.
  assert (@create_ca (demo_platform (Exited 0))
            {| force := false; auto_install := false |} fresh_world
          = (inr tt,
             snd (@create_ca (demo_platform (Exited 0))
                    {| force := false; auto_install := false |} fresh_world))) as Hrun
    by (vm_compute; reflexivity).
  rewrite Hrun in Hthm.
  destruct (@create_ca (demo_platform (Exited 0))
              {| force := false; auto_install := true |} fresh_world) as [r1 w1].
  destruct Hthm as (Hr & Hok & _); [vm_compute; reflexivity|].
  destruct (Hok eq_refl) as [Hfs Hout].
  split; [exact Hr|]. split; [|exact Hout].
  rewrite Hfs. vm_compute. reflexivity.
Defined.

(** Making a server certificate leaves the CA of the machine alone. *)
Lemma create_certificate_touches_only_server_files_witness :
  fs world_with_server_certificate
    !! (@user_data_dir (demo_platform (Exited 1)) // "ca.key")
  = fs world_with_ca !! (@user_data_dir (demo_platform (Exited 1)) // "ca.key") /\
  fs world_with_server_certificate !! ["tmp"] = fs world_with_ca !! ["tmp"].
Proof.
  pose proof (@create_certificate_touches_only_server_files (demo_platform (Exited 1))
                ["tmp"] world_with_ca) as Hthm.
  unfold world_with_server_certificate.
  destruct (@create_certificate (demo_platform (Exited 1)) ["tmp"] world_with_ca)
    as [r w'].
  destruct Hthm as (_ & Hkey & _ & Hother). split; [exact Hkey|].
  apply Hother; vm_compute; discriminate.
Defined.



(** There is no [/nowhere] on the machine. *)
Lemma create_certificate_unwritable_output_witness :
  exists e w',
    @create_certificate (demo_platform (Exited 1)) ["nowhere"] world_with_ca = (inl e, w') /\
    fs w' = fs world_with_ca /\ stdout w' = stdout world_with_ca.
Proof.
  apply (@create_certificate_unwritable_output (demo_platform (Exited 1)) ["nowhere"]
           world_with_ca).
  vm_compute. reflexivity.
Defined.

(** A second server certificate in [/tmp]. *)
Lemma create_certificate_rerun_witness :
  exists w2,
    @create_certificate (demo_platform (Exited 1)) ["tmp"] world_with_server_certificate
    = (inr tt, w2) /\
    fs w2 !! (["tmp"] // "server.key")
    = Some (File (private_bytes
                    {| public_exponent := 65537; key_size := 2048; key_material := 2 |}
                    PEM TraditionalOpenSSL NoEncryption)).
Proof.
  destruct (@create_certificate_rerun (demo_platform (Exited 1)) ["tmp"] world_with_ca
              world_with_server_certificate)
    as (w2 & ca_key & format & ca_crt & crt & Hrun & _ & _ & Hkey & _).
  - vm_compute. reflexivity.
  - exists w2. split; [exact Hrun|]. refine (eq_trans Hkey _). vm_compute. reflexivity.
Defined.

(** From the fresh machine to a server certificate in [/tmp]. *)
Lemma create_ca_then_issue_witness :
  exists w2 ca_crt crt,
    @create_certificate (demo_platform (Exited 1)) ["tmp"] world_with_ca = (inr tt, w2) /\
    fs w2 !! (["tmp"] // "server.crt") = Some (File (public_bytes crt PEM)) /\
    verify_directly_issued_by crt ca_crt /\
    cert_subject crt = cert_issuer crt.
Proof.
  destruct (@create_ca_then_issue (demo_platform (Exited 1))
              {| force := false; auto_install := true |} ["tmp"] fresh_world world_with_ca)
    as (w2 & ca_crt & crt & Hrun & _ & Hfile & Hverify & Hsubject & Hissuer & _).
  - vm_compute. reflexivity.
  - vm_compute. reflexivity.
  - vm_compute. reflexivity.
  - exists w2, ca_crt, crt. split; [exact Hrun|]. split; [exact Hfile|].
    split; [exact Hverify|]. rewrite Hsubject, Hissuer. reflexivity.
Defined.

(** One digest, one thumbprint. *)
Lemma thumbprint_injective_witness :
  [x92; xb7; xdc; x01; x26; x4b; x70; x95; xba; xdf;
   x04; x29; x4e; x73; x98; xbd; xe2; x07; x2c; x51]
  = map (fun i => default x00 (Byte.of_N ((4242 + 37 * N.of_nat i) mod 256))) (seq 0 20).
Proof.
  apply thumbprint_injective; vm_compute; reflexivity.
Defined.
